(** * Flo custom component: token lifecycle and polling coordinator

    A shallow embedding of [custom_components/flo/api.py] (the OAuth2 API
    client) and [custom_components/flo/coordinator.py] (the per-device
    polling coordinator), followed by the properties the written
    specification states about them.

    Python objects are mutable and exceptions do not roll mutations back,
    so every method is a function from a state to a result (a returned
    value or a raised exception) paired with the state it leaves behind. *)

From Stdlib Require Import ZArith List String Bool Lia SpecFloat.
Import ListNotations.
Local Open Scope string_scope.
Local Open Scope Z_scope.
Local Set Warnings "-register-all".

(* ===================================================================== *)
(** ** JSON values, as the HTTP client hands them to the code            *)
(* ===================================================================== *)

(** What [await resp.json()] produces: [None], [bool], [int], [float],
    [str], [list] or [dict].  A float is an IEEE 754 binary64 number.  A
    dict is kept as an association list in insertion order; a key is
    looked up at its first occurrence. *)
Inductive json : Type :=
| JNull
| JBool (b : bool)
| JInt (n : Z)
| JFloat (x : spec_float)
| JStr (s : string)
| JArr (items : list json)
| JObj (fields : list (string * json)).

(** Exceptions that travel through the two modules.  The three classes
    the repository raises keep the exception they were raised [from]. *)
Inductive Exn : Type :=
| ClientError                    (* aiohttp.ClientError and subclasses *)
| TimeoutError                   (* builtin TimeoutError *)
| JSONDecodeError                (* orjson.JSONDecodeError *)
| KeyError (key : string)
| TypeError
| AttributeError
| OverflowError
| ValueError
| FloAuthError (cause : Exn)     (* api.FloAuthError *)
| FloRequestError (cause : Exn)  (* api.FloRequestError *)
| UpdateFailed (cause : Exn).    (* update_coordinator.UpdateFailed *)

Inductive result (A : Type) : Type :=
| Returns (a : A)
| Raises (e : Exn).
Arguments Returns {A} a.
Arguments Raises {A} e.

Definition is_returns {A} (r : result A) : bool :=
  match r with Returns _ => true | Raises _ => false end.

(** [bool(v)]: Python truthiness of a JSON value. *)
Definition truthy (v : json) : bool :=
  match v with
  | JNull => false
  | JBool b => b
  | JInt n => negb (n =? 0)
  | JFloat x => match x with S754_zero _ => false | _ => true end
  | JStr s => negb (s =? EmptyString)%string
  | JArr items => match items with [] => false | _ :: _ => true end
  | JObj fields => match fields with [] => false | _ :: _ => true end
  end.

Fixpoint lookup (key : string) (fields : list (string * json)) : option json :=
  match fields with
  | [] => None
  | (k, v) :: rest => if (k =? key)%string then Some v else lookup key rest
  end.

(** [v[key]] for a string key. *)
Definition subscript (v : json) (key : string) : result json :=
  match v with
  | JObj fields =>
      match lookup key fields with
      | Some x => Returns x
      | None => Raises (KeyError key)
      end
  | _ => Raises TypeError
  end.

(** [v.get(key, default)]; only a dict has the method. *)
Definition dict_get (v : json) (key : string) (default : json) : result json :=
  match v with
  | JObj fields =>
      match lookup key fields with
      | Some x => Returns x
      | None => Returns default
      end
  | _ => Raises AttributeError
  end.

(** [key in v].  The code applies it only to a value it has already
    subscripted with a string key, hence to a dict. *)
Definition py_in (key : string) (v : json) : result bool :=
  match v with
  | JObj fields =>
      Returns (match lookup key fields with Some _ => true | None => false end)
  | _ => Raises TypeError
  end.

(* ===================================================================== *)
(** ** Time                                                              *)
(* ===================================================================== *)

(** A [datetime] is a count of microseconds since 0001-01-01 00:00:00,
    the earliest one Python has; a [timedelta] is a count of
    microseconds. *)
Definition datetime := Z.

Definition seconds (n : Z) : Z := n * 1000000.
Definition minutes (n : Z) : Z := seconds (60 * n).
Definition day : Z := seconds 86400.

(** [datetime.min] and the first instant after [datetime.max]
    (9999-12-31 23:59:59.999999, day 3652059 of the calendar). *)
Definition datetime_min : datetime := 0.
Definition datetime_end : datetime := 3652059 * day.

Definition datetime_ok (t : Z) : bool :=
  (datetime_min <=? t) && (t <? datetime_end).

(** A [timedelta] holds between -999999999 and 999999999 whole days. *)
Definition timedelta_ok (us : Z) : bool :=
  (-999999999 * day <=? us) && (us <? 1000000000 * day).

(** Building a [timedelta] from a count of microseconds. *)
Definition timedelta_of_microseconds (us : Z) : result Z :=
  if timedelta_ok us then Returns us else Raises OverflowError.

(** [modf] on a finite double of sign [s], mantissa [m] and exponent [e]
    (value m * 2^e): the integer part, rounded toward zero, and the
    fractional part, which is exact. *)
Definition modf_int (s : bool) (m : positive) (e : Z) : Z :=
  cond_Zopp s (if 0 <=? e then Z.pos m * 2 ^ e else Z.pos m / 2 ^ (- e)).

Definition modf_frac (s : bool) (m : positive) (e : Z) : spec_float :=
  if 0 <=? e then S754_zero s
  else match Z.pos m mod 2 ^ (- e) with
       | Z.pos r => S754_finite s r e
       | _ => S754_zero s
       end.

(** The whole microseconds that the left-over fraction [l] (|l| < 1)
    adds to the running sum [x]: [round(l)], and on a tie the neighbour
    that makes the sum even. *)
Definition round_leftover (l : spec_float) (x : Z) : Z :=
  match l with
  | S754_finite s m e =>
      match 2 * Z.pos m ?= 2 ^ (- e) with
      | Lt => 0
      | Gt => cond_Zopp s 1
      | Eq => if Z.odd x then cond_Zopp s 1 else 0
      end
  | _ => 0
  end.

(** [timedelta(seconds=x)] for a float [x], as CPython computes it: the
    integer part times 10^6 exactly, then the fractional part times 10^6
    in double arithmetic, split again, the rest rounded. *)
Definition timedelta_seconds_float (x : spec_float) : result Z :=
  match x with
  | S754_nan => Raises ValueError
  | S754_infinity _ => Raises OverflowError
  | S754_zero _ => timedelta_of_microseconds 0
  | S754_finite s m e =>
      let sum := modf_int s m e * 1000000 in
      match modf_frac s m e with
      | S754_finite fs fm fe =>
          match SFmul 53 1024 (S754_finite false 1000000 0)
                      (S754_finite fs fm fe) with
          | S754_finite ps pm pe =>
              let y := sum + modf_int ps pm pe in
              timedelta_of_microseconds
                (y + round_leftover (modf_frac ps pm pe) y)
          | _ => timedelta_of_microseconds sum
          end
      | _ => timedelta_of_microseconds sum
      end
  end.

(** [timedelta(seconds=v)] in microseconds; a [bool] is an [int]. *)
Definition timedelta_seconds (v : json) : result Z :=
  match v with
  | JInt n => timedelta_of_microseconds (seconds n)
  | JBool b => timedelta_of_microseconds (seconds (if b then 1 else 0))
  | JFloat x => timedelta_seconds_float x
  | _ => Raises TypeError
  end.

(** [t + delta] and [t - delta] on a [datetime]: "date value out of
    range" outside the years 1 to 9999. *)
Definition datetime_add (t : datetime) (delta : Z) : result datetime :=
  if datetime_ok (t + delta) then Returns (t + delta) else Raises OverflowError.

Definition datetime_sub (t : datetime) (delta : Z) : result datetime :=
  if datetime_ok (t - delta) then Returns (t - delta) else Raises OverflowError.

(* ===================================================================== *)
(** ** The outside world: clock and network                              *)
(* ===================================================================== *)

(** Query-string values: plain text, or a datetime sent as [isoformat()]. *)
Inductive Param : Type :=
| PStr (s : string)
| PDate (t : datetime).

(** One call on the host's [ClientSession]. *)
Record HttpCall : Type := mkCall {
  http_method : string;
  http_url : string;
  http_bearer : option json;   (* the token put after "Bearer " *)
  http_json : option json;     (* json= body *)
  http_params : list (string * Param);
  http_timeout : Z             (* ClientTimeout(total=...) in seconds *)
}.

(** How a call ends, seen from the [async with] block that issued it:
    the parsed body, or the exception raised by the session call,
    [raise_for_status()] or [resp.json()].  [NetTimeout] also stands for
    the enclosing [asyncio.timeout] firing while the call is awaited:
    none of the handlers between the call and the coordinator catches
    that. *)
Inductive HttpOutcome : Type :=
| NetJson (body : json)
| NetClientError
| NetTimeout
| NetBadJson.

Record HttpReply : Type := mkReply {
  elapsed : Z;              (* wall-clock time the call took *)
  outcome : HttpOutcome
}.

(** A completed call, as recorded in the world's history. *)
Record Exchange : Type := mkExchange {
  request_of : HttpCall;
  at_time : datetime;       (* when the reply was received *)
  reply_of : HttpOutcome
}.

(** The world answers the k-th call with [script k]; [history] lists the
    exchanges so far, most recent first. *)
Record World : Type := mkWorld {
  now : datetime;
  script : nat -> HttpReply;
  cursor : nat;
  history : list Exchange
}.

Definition result_of_outcome (o : HttpOutcome) : result json :=
  match o with
  | NetJson body => Returns body
  | NetClientError => Raises ClientError
  | NetTimeout => Raises TimeoutError
  | NetBadJson => Raises JSONDecodeError
  end.

Definition http (call : HttpCall) (w : World) : result json * World :=
  let r := script w (cursor w) in
  let t := now w + elapsed r in
  (result_of_outcome (outcome r),
   mkWorld t (script w) (S (cursor w))
           (mkExchange call t (outcome r) :: history w)).

(** Time passing with no call in flight. *)
Definition wait (d : Z) (w : World) : World :=
  mkWorld (now w + d) (script w) (cursor w) (history w).

(* ===================================================================== *)
(** ** A state-and-exception monad                                       *)
(* ===================================================================== *)

Definition Py (S A : Type) : Type := S -> result A * S.

Definition ret {S A} (a : A) : Py S A := fun s => (Returns a, s).
Definition raise {S A} (e : Exn) : Py S A := fun s => (Raises e, s).

Definition bind {S A B} (m : Py S A) (k : A -> Py S B) : Py S B :=
  fun s =>
    match m s with
    | (Returns a, s') => k a s'
    | (Raises e, s') => (Raises e, s')
    end.

(** [try: m  except ... as err: handler err]; a handler re-raises what
    its [except] clauses do not name. *)
Definition try_except {S A} (m : Py S A) (handler : Exn -> Py S A) : Py S A :=
  fun s =>
    match m s with
    | (Returns a, s') => (Returns a, s')
    | (Raises e, s') => handler e s'
    end.

(** A pure computation that may raise. *)
Definition py {S A} (r : result A) : Py S A := fun s => (r, s).

Declare Scope py_scope.
Delimit Scope py_scope with py.
Notation "x <- m ;; k" := (bind m (fun x => k))
  (at level 61, m at next level, right associativity) : py_scope.
Notation "m ;; k" := (bind m (fun _ => k))
  (at level 61, right associativity) : py_scope.
Local Open Scope py_scope.

(* ===================================================================== *)
(** ** api.py                                                             *)
(* ===================================================================== *)

Definition CLIENT_ID : string := "3baec26f-0e8b-4e1d-84b0-e178f05ea0a5".
Definition CLIENT_SECRET : string := "3baec26f-0e8b-4e1d-84b0-e178f05ea0a5".

Definition API_BASE : string := "https://api-gw.meetflo.com/api".
Definition API_V1_BASE : string := API_BASE ++ "/v1".
Definition API_V2_BASE : string := API_BASE ++ "/v2".

(** class FloAPI; [None] is [JNull] for the fields that receive JSON. *)
Record FloAPI : Type := mkFloAPI {
  _username : string;
  _password : string;
  _access_token : json;
  _refresh_token : json;
  _token_expiration : option datetime;
  _user_id : json
}.

(** FloAPI.__init__ *)
Definition FloAPI_init (username password : string) : FloAPI :=
  mkFloAPI username password JNull JNull None JNull.

Definition set_access_token (v : json) (c : FloAPI) : FloAPI :=
  mkFloAPI (_username c) (_password c) v (_refresh_token c)
           (_token_expiration c) (_user_id c).
Definition set_refresh_token (v : json) (c : FloAPI) : FloAPI :=
  mkFloAPI (_username c) (_password c) (_access_token c) v
           (_token_expiration c) (_user_id c).
Definition set_user_id (v : json) (c : FloAPI) : FloAPI :=
  mkFloAPI (_username c) (_password c) (_access_token c) (_refresh_token c)
           (_token_expiration c) v.
Definition set_token_expiration (t : option datetime) (c : FloAPI) : FloAPI :=
  mkFloAPI (_username c) (_password c) (_access_token c) (_refresh_token c)
           t (_user_id c).

(** The client together with the world its session talks to. *)
Definition ApiState : Type := (FloAPI * World)%type.

Definition self {A} (f : FloAPI -> A) : Py ApiState A :=
  fun s => (Returns (f (fst s)), s).
Definition assign (f : FloAPI -> FloAPI) : Py ApiState unit :=
  fun s => (Returns tt, (f (fst s), snd s)).
Definition datetime_now : Py ApiState datetime :=
  fun s => (Returns (now (snd s)), s).
Definition session (call : HttpCall) : Py ApiState json :=
  fun s => let (r, w) := http call (snd s) in (r, (fst s, w)).

Definition token_url : string := API_V1_BASE ++ "/oauth2/token".

Definition password_grant (username password : string) : json :=
  JObj [("client_id", JStr CLIENT_ID);
        ("client_secret", JStr CLIENT_SECRET);
        ("grant_type", JStr "password");
        ("username", JStr username);
        ("password", JStr password)].

Definition refresh_grant (refresh_token : json) : json :=
  JObj [("client_id", JStr CLIENT_ID);
        ("client_secret", JStr CLIENT_SECRET);
        ("grant_type", JStr "refresh_token");
        ("refresh_token", refresh_token)].

Definition token_post (data : json) : HttpCall :=
  mkCall "post" token_url None (Some data) [] 10.

(** FloAPI.authenticate *)
Definition authenticate : Py ApiState unit :=
  try_except
    (username <- self _username ;;
     password <- self _password ;;
     auth_response <- session (token_post (password_grant username password)) ;;
     access_token <- py (subscript auth_response "access_token") ;;
     assign (set_access_token access_token) ;;
     refresh_token <- py (subscript auth_response "refresh_token") ;;
     assign (set_refresh_token refresh_token) ;;
     user_id <- py (subscript auth_response "user_id") ;;
     assign (set_user_id user_id) ;;
     expires_in <- py (subscript auth_response "expires_in") ;;
     t <- datetime_now ;;
     delta <- py (timedelta_seconds expires_in) ;;
     expiration <- py (datetime_add t delta) ;;
     assign (set_token_expiration (Some expiration)))
    (fun err =>
       match err with
       | ClientError => raise (FloAuthError err)
       | KeyError _ => raise (FloAuthError err)
       | _ => raise err
       end).

(** FloAPI.refresh_access_token *)
Definition refresh_access_token : Py ApiState unit :=
  held <- self _refresh_token ;;
  if negb (truthy held) then
    authenticate
  else
    try_except
      (auth_response <- session (token_post (refresh_grant held)) ;;
       access_token <- py (subscript auth_response "access_token") ;;
       assign (set_access_token access_token) ;;
       rotated <- py (py_in "refresh_token" auth_response) ;;
       (if rotated : bool then
          refresh_token <- py (subscript auth_response "refresh_token") ;;
          assign (set_refresh_token refresh_token)
        else ret tt) ;;
       expires_in <- py (subscript auth_response "expires_in") ;;
       t <- datetime_now ;;
       delta <- py (timedelta_seconds expires_in) ;;
       expiration <- py (datetime_add t delta) ;;
       assign (set_token_expiration (Some expiration)))
      (fun err =>
         match err with
         | ClientError => authenticate
         | _ => raise err
         end).

(** FloAPI._ensure_token_valid *)
Definition _ensure_token_valid : Py ApiState unit :=
  access_token <- self _access_token ;;
  token_expiration <- self _token_expiration ;;
  match truthy access_token, token_expiration with
  | true, Some expiration =>
      t <- datetime_now ;;
      threshold <- py (datetime_sub expiration (minutes 5)) ;;
      if t >=? threshold then refresh_access_token else ret tt
  | _, _ => authenticate
  end.

(** The keyword arguments the wrappers pass to [request]. *)
Record Kwargs : Type := mkKwargs {
  kw_params : list (string * Param);
  kw_json : option json;
  kw_timeout : option Z
}.

Definition no_kwargs : Kwargs := mkKwargs [] None None.

(** FloAPI.request *)
Definition request (method path : string) (kwargs : Kwargs) : Py ApiState json :=
  _ensure_token_valid ;;
  let url := if String.prefix "/" path then API_V2_BASE ++ path else path in
  access_token <- self _access_token ;;
  let timeout := match kw_timeout kwargs with Some t => t | None => 20 end in
  try_except
    (session (mkCall method url (Some access_token) (kw_json kwargs)
                     (kw_params kwargs) timeout))
    (fun err =>
       match err with
       | ClientError => raise (FloRequestError err)
       | _ => raise err
       end).

(** FloAPI.get_device_info *)
Definition get_device_info (device_id : string) : Py ApiState json :=
  request "get" ("/devices/" ++ device_id) no_kwargs.

(** FloAPI.get_consumption_info *)
Definition get_consumption_info (location_id : string)
           (start_date end_date : datetime) : Py ApiState json :=
  let params := [("startDate", PDate start_date);
                 ("endDate", PDate end_date);
                 ("interval", PStr "1h");
                 ("locationId", PStr location_id)] in
  request "get" "/water/consumption" (mkKwargs params None None).

(** FloAPI.send_presence_ping *)
Definition send_presence_ping : Py ApiState json :=
  request "post" "/presence/me" no_kwargs.

(* ===================================================================== *)
(** ** coordinator.py                                                     *)
(* ===================================================================== *)

(** class FloDeviceDataUpdateCoordinator: the fields the class itself
    declares.  The API client is a shared object and is kept beside the
    coordinator, not inside it. *)
Record Coordinator : Type := mkCoordinator {
  _flo_location_id : string;
  _flo_device_id : string;
  _manufacturer : string;
  _device_information : json;
  _water_usage : json;
  _failure_count : Z
}.

(** FloDeviceDataUpdateCoordinator.__init__ *)
Definition Coordinator_init (location_id device_id : string) : Coordinator :=
  mkCoordinator location_id device_id "Flo by Moen" (JObj []) (JObj []) 0.

Definition set_device_information (v : json) (c : Coordinator) : Coordinator :=
  mkCoordinator (_flo_location_id c) (_flo_device_id c) (_manufacturer c)
                v (_water_usage c) (_failure_count c).
Definition set_water_usage (v : json) (c : Coordinator) : Coordinator :=
  mkCoordinator (_flo_location_id c) (_flo_device_id c) (_manufacturer c)
                (_device_information c) v (_failure_count c).
Definition set_failure_count (n : Z) (c : Coordinator) : Coordinator :=
  mkCoordinator (_flo_location_id c) (_flo_device_id c) (_manufacturer c)
                (_device_information c) (_water_usage c) n.

(** A coordinator, the client it was given and the world behind it. *)
Definition Sys : Type := (Coordinator * ApiState)%type.

Definition this {A} (f : Coordinator -> A) : Py Sys A :=
  fun s => (Returns (f (fst s)), s).
Definition store (f : Coordinator -> Coordinator) : Py Sys unit :=
  fun s => (Returns tt, (f (fst s), snd s)).

(** [await self.api_client.<method>(...)] *)
Definition api_client {A} (m : Py ApiState A) : Py Sys A :=
  fun s => let (r, a) := m (snd s) in (r, (fst s, a)).

(** [dt_util.now()], read off the same clock. *)
Definition dt_util_now : Py Sys datetime :=
  fun s => (Returns (now (snd (snd s))), s).

(** [datetime(today.year, today.month, today.day, 0, 0)] *)
Definition start_of_day (t : datetime) : datetime := t - t mod day.

(** [datetime(today.year, today.month, today.day, 23, 59, 59, 999000)] *)
Definition end_of_day (t : datetime) : datetime :=
  start_of_day t + seconds (23 * 3600 + 59 * 60 + 59) + 999000.

(** FloDeviceDataUpdateCoordinator.send_presence_ping *)
Definition coordinator_send_presence_ping : Py Sys unit :=
  api_client send_presence_ping ;;
  ret tt.

(** FloDeviceDataUpdateCoordinator._update_device *)
Definition _update_device : Py Sys unit :=
  device_id <- this _flo_device_id ;;
  info <- api_client (get_device_info device_id) ;;
  store (set_device_information info).

(** FloDeviceDataUpdateCoordinator._update_consumption_data *)
Definition _update_consumption_data : Py Sys unit :=
  today <- dt_util_now ;;
  let start_date := start_of_day today in
  let end_date := end_of_day today in
  try_except
    (location_id <- this _flo_location_id ;;
     usage <- api_client (get_consumption_info location_id start_date end_date) ;;
     store (set_water_usage usage))
    (fun error =>
       match error with
       | FloRequestError _ => store (set_water_usage (JObj []))
       | _ => raise error
       end).

(** The [try] block of [_async_update_data]. *)
Definition update_cycle_body : Py Sys unit :=
  coordinator_send_presence_ping ;;
  _update_device ;;
  _update_consumption_data ;;
  store (set_failure_count 0).

(** [except (FloRequestError, TimeoutError, JSONDecodeError)] *)
Definition soft_failure (e : Exn) : bool :=
  match e with
  | FloRequestError _ | TimeoutError | JSONDecodeError => true
  | _ => false
  end.

(** The [except] block of [_async_update_data]. *)
Definition update_cycle_handler (error : Exn) : Py Sys unit :=
  if soft_failure error then
    store (fun c => set_failure_count (_failure_count c + 1) c) ;;
    failures <- this _failure_count ;;
    if failures >? 3 then raise (UpdateFailed error) else ret tt
  else raise error.

(** FloDeviceDataUpdateCoordinator._async_update_data *)
Definition _async_update_data : Py Sys unit :=
  try_except update_cycle_body update_cycle_handler.

(** *** Projections *)

Definition rbind {A B} (r : result A) (k : A -> result B) : result B :=
  match r with
  | Returns a => k a
  | Raises e => Raises e
  end.

(** [v.get]: looking the method up, before any argument is evaluated. *)
Definition getattr_get (v : json) : result unit :=
  match v with
  | JObj _ => Returns tt
  | _ => Raises AttributeError
  end.

(** FloDeviceDataUpdateCoordinator.manufacturer *)
Definition manufacturer (c : Coordinator) : string := _manufacturer c.

(** FloDeviceDataUpdateCoordinator.model *)
Definition model (c : Coordinator) : result json :=
  subscript (_device_information c) "deviceModel".

(** FloDeviceDataUpdateCoordinator.consumption_today *)
Definition consumption_today (c : Coordinator) : result json :=
  if negb (truthy (_water_usage c)) then Returns JNull
  else
    rbind (dict_get (_water_usage c) "aggregations" JNull) (fun aggregations =>
    if negb (truthy aggregations) then Returns JNull
    else dict_get aggregations "sumTotalGallonsConsumed" JNull).

Section Formatting.

(** [str(v)] for a value that is not a string: Python's own rendering
    of numbers, [None], lists and dicts. *)
Variable str_other : json -> string.

(** [f"{v}"] *)
Definition format (v : json) : string :=
  match v with
  | JStr s => s
  | _ => str_other v
  end.

(** FloDeviceDataUpdateCoordinator.device_name: the receiver's [get]
    is looked up, then both arguments are evaluated, then the call is
    made. *)
Definition device_name (c : Coordinator) : result json :=
  rbind (getattr_get (_device_information c)) (fun _ =>
  rbind (model c) (fun m =>
  dict_get (_device_information c) "nickname"
           (JStr (manufacturer c ++ " " ++ format m)))).

End Formatting.

(** *** Runs *)

(** What the host's scheduler sees of one cycle, and the state left. *)
Definition cycle (s : Sys) : result unit * Sys := _async_update_data s.

(** [n] cycles in a row, with the report of each. *)
Fixpoint poll (n : nat) (s : Sys) : list (result unit) * Sys :=
  match n with
  | O => ([], s)
  | S n' =>
      let (r, s') := cycle s in
      let (rs, s'') := poll n' s' in
      (r :: rs, s'')
  end.

(** The operations that touch the token state of a client. *)
Inductive Op : Type :=
| OpAuthenticate
| OpRefresh
| OpRequest (method path : string) (kwargs : Kwargs)
| OpWait (d : Z).

Definition run_op (o : Op) (s : ApiState) : ApiState :=
  match o with
  | OpAuthenticate => snd (authenticate s)
  | OpRefresh => snd (refresh_access_token s)
  | OpRequest method path kwargs => snd (request method path kwargs s)
  | OpWait d => (fst s, wait d (snd s))
  end.

Definition run_ops (ops : list Op) (s : ApiState) : ApiState :=
  fold_left (fun s o => run_op o s) ops s.

(* ===================================================================== *)
(** ** Notions the properties are stated with, and sample states         *)
(* ===================================================================== *)

(** [xs] are the exchanges performed between worlds [w] and [w'], most
    recent first. *)
Definition issued (w w' : World) (xs : list Exchange) : Prop :=
  history w' = (xs ++ history w)%list.

Definition is_token_post (x : Exchange) : Prop :=
  http_url (request_of x) = token_url /\ http_bearer (request_of x) = None.

(** The kinds of token state the gate tells apart, at time [t].  In the
    last three a token and an expiration [e] are held; [e - d] is, or is
    not, a [datetime] Python can represent. *)
Definition no_token (c : FloAPI) : Prop :=
  truthy (_access_token c) = false \/ _token_expiration c = None.

Definition expires_within (d : Z) (c : FloAPI) (t : datetime) : Prop :=
  truthy (_access_token c) = true /\
  exists e, _token_expiration c = Some e /\
            datetime_ok (e - d) = true /\ e - t <= d.

Definition expires_after (d : Z) (c : FloAPI) (t : datetime) : Prop :=
  truthy (_access_token c) = true /\
  exists e, _token_expiration c = Some e /\
            datetime_ok (e - d) = true /\ e - t > d.

Definition expiration_too_early (d : Z) (c : FloAPI) : Prop :=
  truthy (_access_token c) = true /\
  exists e, _token_expiration c = Some e /\ datetime_ok (e - d) = false.

(** What a method whose body is [await call(...)] alone, without
    [return], hands back: [None] when the call returned, and what the call
    raised otherwise. *)
Definition result_dropped {A} (r : result A) : result unit :=
  match r with
  | Returns _ => Returns tt
  | Raises e => Raises e
  end.

(** A world in which nothing has happened yet. *)
Definition fresh_world (t : datetime) (sc : nat -> HttpReply) : World :=
  mkWorld t sc 0 [].

(** Scripts: the same outcome for every call, or a finite list of
    replies followed by transport failures. *)
Definition always (o : HttpOutcome) : nat -> HttpReply :=
  fun _ => mkReply 0 o.

Definition replies (l : list HttpReply) : nat -> HttpReply :=
  fun k => nth k l (mkReply 0 NetClientError).

Definition token_body (access refresh : string) (expires_in : Z) : json :=
  JObj [("access_token", JStr access);
        ("refresh_token", JStr refresh);
        ("user_id", JStr "user-1");
        ("expires_in", JInt expires_in)].

(** A client that authenticated at time 0 with [expires_in = 3600]. *)
Definition signed_in : FloAPI :=
  mkFloAPI "user@example.com" "secret" (JStr "tok-1") (JStr "ref-1")
           (Some (seconds 3600)) (JStr "user-1").

(** The call [request] hands to the session, given the token held. *)
Definition request_call (method path : string) (kwargs : Kwargs)
           (access_token : json) : HttpCall :=
  mkCall method (if String.prefix "/" path then API_V2_BASE ++ path else path)
         (Some access_token) (kw_json kwargs) (kw_params kwargs)
         (match kw_timeout kwargs with Some t => t | None => 20 end).

(** [except ClientError] of [request]. *)
Definition wrap_request_error {A} (r : result A) : result A :=
  match r with
  | Raises ClientError => Raises (FloRequestError ClientError)
  | _ => r
  end.

(** The [try] block of a cycle ends in one of the three exceptions the
    [except] clause names. *)
Definition fails_softly (s : Sys) : bool :=
  match update_cycle_body s with
  | (Raises e, _) => soft_failure e
  | (Returns _, _) => false
  end.

(** The next [n] cycles all fail softly. *)
Fixpoint soft_streak (n : nat) (s : Sys) : bool :=
  match n with
  | O => true
  | S n' => fails_softly s && soft_streak n' (snd (cycle s))
  end.

(** The three API calls of a cycle, in the order the [try] block makes
    them. *)
Inductive Step : Type :=
| AtPing
| AtDevice
| AtConsumption.

(** The first API call of a cycle that raises, and what it raises. *)
Definition first_failure (s : Sys) : option (Step * Exn) :=
  match send_presence_ping (snd s) with
  | (Raises e, _) => Some (AtPing, e)
  | (Returns _, a1) =>
      match get_device_info (_flo_device_id (fst s)) a1 with
      | (Raises e, _) => Some (AtDevice, e)
      | (Returns _, a2) =>
          match get_consumption_info (_flo_location_id (fst s))
                  (start_of_day (now (snd a2))) (end_of_day (now (snd a2))) a2 with
          | (Raises e, _) => Some (AtConsumption, e)
          | (Returns _, _) => None
          end
      end
  end.



(** A cycle is reported as failed when [_async_update_data] raises. *)
Definition reported_failed (r : result unit) : bool :=
  match r with
  | Raises _ => true
  | Returns _ => false
  end.

Definition failures (s : Sys) : Z := _failure_count (fst s).

(** What the handler does with a failure the [except] clause names. *)
Definition count_failure (error : Exn) (s : Sys) : result unit * Sys :=
  (if failures s + 1 >? 3 then Raises (UpdateFailed error) else Returns tt,
   (set_failure_count (failures s + 1) (fst s), snd s)).


(** A coordinator after a successful poll. *)
Definition device_document : json :=
  JObj [("nickname", JStr "Main valve");
        ("deviceModel", JStr "flo_device_075_v2");
        ("isConnected", JBool true)].

(** The double 12.5 = 25 * 2^48 * 2^-49. *)
Definition twelve_and_a_half : spec_float :=
  S754_finite false 7036874417766400 (-49).

Definition consumption_document : json :=
  JObj [("aggregations",
         JObj [("sumTotalGallonsConsumed", JFloat twelve_and_a_half)])].

Definition polled_device : Coordinator :=
  mkCoordinator "loc-1" "dev-1" "Flo by Moen"
                device_document consumption_document 0.

Definition is_number (v : json) : bool :=
  match v with
  | JInt _ | JFloat _ => true
  | _ => false
  end.

(** A consumption document whose aggregations carry no sum. *)
Definition consumption_without_sum : json :=
  JObj [("aggregations", JObj [("sumTotalDurationSeconds", JInt 0)]);
        ("items", JArr [])].

(** The access token a reply offers, if any: what [auth_response
    ["access_token"]] evaluates to. *)
Definition offered_token (o : HttpOutcome) : option json :=
  match o with
  | NetJson body =>
      match subscript body "access_token" with
      | Returns a => Some a
      | Raises _ => None
      end
  | _ => None
  end.

(** [x] is the token exchange that gave the client both the access
    token and the expiration it holds. *)
Definition stored_by (x : Exchange) (c : FloAPI) : Prop :=
  is_token_post x /\
  exists body e d,
    reply_of x = NetJson body /\
    subscript body "access_token" = Returns (_access_token c) /\
    subscript body "expires_in" = Returns e /\
    timedelta_seconds e = Returns d /\
    _token_expiration c = Some (at_time x + d).

(** The invariant, over the exchanges [xs] performed so far. *)
Definition token_from (xs : list Exchange) (c : FloAPI) : Prop :=
  _access_token c <> JNull ->
  _token_expiration c <> None /\ exists x, In x xs /\ stored_by x c.

Definition is_password_grant (call : HttpCall) : bool :=
  match http_json call with
  | Some data =>
      match subscript data "grant_type" with
      | Returns (JStr g) => (g =? "password")%string
      | _ => false
      end
  | None => false
  end.

(** The reply, received at time [t], has an "expires_in" from which an
    expiration can be computed. *)
Definition has_expiry (t : datetime) (body : json) : bool :=
  match subscript body "expires_in" with
  | Returns e =>
      match timedelta_seconds e with
      | Returns d => datetime_ok (t + d)
      | Raises _ => false
      end
  | Raises _ => false
  end.

(** A reply to a token POST (a call made without bearer token) is
    complete when, offering an access token, it also has every other
    field the code reads from it: under "expires_in" a number of seconds
    that [timedelta] accepts and that, added to the time of the reply,
    gives a [datetime] within range; and, for the password grant,
    "refresh_token" and "user_id". *)
Definition complete_token_reply (x : Exchange) : bool :=
  match reply_of x, http_bearer (request_of x) with
  | NetJson body, None =>
      if is_returns (subscript body "access_token") then
        has_expiry (at_time x) body &&
        (if is_password_grant (request_of x)
         then is_returns (subscript body "refresh_token") &&
              is_returns (subscript body "user_id")
         else true)
      else true
  | _, _ => true
  end.

(** A token response that has the access token and nothing else. *)
Definition truncated_token_body : json := JObj [("access_token", JStr "tok-1")].

(** An operation keeps the invariant, provided the token replies it
    receives are complete. *)
Definition preserves (m : ApiState -> ApiState) : Prop :=
  forall s,
    exists new,
      issued (snd s) (snd (m s)) new /\
      forall xs0,
        token_from xs0 (fst s) ->
        forallb complete_token_reply new = true ->
        token_from (new ++ xs0)%list (fst (m s)).

(** A run: sign in, wait until the token is about to expire, fetch a
    device (the refresh fails in transport, the fallback signs in again,
    the fetch itself times out), send a presence ping (which fails). *)
Definition sample_run : list Op :=
  [OpAuthenticate;
   OpWait (seconds 3400);
   OpRequest "get" "/devices/dev-1" no_kwargs;
   OpRequest "post" "/presence/me" no_kwargs].

Definition sample_script : nat -> HttpReply :=
  replies [mkReply 250000 (NetJson (token_body "tok-1" "ref-1" 3600));
           mkReply 100000 NetClientError;
           mkReply 250000 (NetJson (token_body "tok-2" "ref-2" 3600));
           mkReply 100000 NetTimeout].

(* ===================================================================== *)
(** ** The rest of api.py and coordinator.py                             *)
(* ===================================================================== *)

(** FloAPI.get_location_info *)
Definition get_location_info (location_id : string) : Py ApiState json :=
  request "get" ("/locations/" ++ location_id) no_kwargs.

(** FloAPI.set_valve_state *)
Definition set_valve_state (device_id target : string) : Py ApiState json :=
  request "post" ("/devices/" ++ device_id)
          (mkKwargs [] (Some (JObj [("valve", JObj [("target", JStr target)])])) None).

(** FloAPI.run_health_test *)
Definition run_health_test (device_id : string) : Py ApiState json :=
  request "post" ("/devices/" ++ device_id ++ "/healthTest/run") no_kwargs.

(** [d[key] = v] on a dict: an existing key keeps its place. *)
Fixpoint dict_set (key : string) (v : json) (fields : list (string * json))
  : list (string * json) :=
  match fields with
  | [] => [(key, v)]
  | (k, x) :: rest =>
      if (k =? key)%string then (key, v) :: rest
      else (k, x) :: dict_set key v rest
  end.

(** [d.update(other)] *)
Definition dict_update (d other : list (string * json)) : list (string * json) :=
  fold_left (fun acc kv => dict_set (fst kv) (snd kv) acc) other d.

(** A keyword argument named like a parameter of the method. *)
Definition names_parameter (kwargs : list (string * json)) : bool :=
  existsb (fun kv => (fst kv =? "self")%string ||
                     (fst kv =? "location_id")%string ||
                     (fst kv =? "mode")%string) kwargs.

(** FloAPI.set_location_mode, called as
    [set_location_mode(location_id, mode, **kwargs)]: a keyword that
    names a parameter is a [TypeError] of the call itself. *)
Definition set_location_mode (location_id mode : string)
           (kwargs : list (string * json)) : Py ApiState json :=
  if names_parameter kwargs then raise TypeError else
  let data := [("target", JStr mode)] in
  let data := match kwargs with
              | [] => data
              | _ :: _ => dict_update data kwargs
              end in
  request "post" ("/locations/" ++ location_id ++ "/systemMode")
          (mkKwargs [] (Some (JObj [("systemMode", JObj data)])) None).

(** async_get_api: a new client, authenticated once. *)
Definition async_get_api (username password : string) (w : World)
  : result FloAPI * World :=
  match authenticate (FloAPI_init username password, w) with
  | (Returns _, (api, w')) => (Returns api, w')
  | (Raises e, (_, w')) => (Raises e, w')
  end.

(** FloDeviceDataUpdateCoordinator.async_set_mode_home *)
Definition async_set_mode_home : Py Sys unit :=
  location_id <- this _flo_location_id ;;
  api_client (set_location_mode location_id "home" []) ;;
  ret tt.

(** FloDeviceDataUpdateCoordinator.async_set_mode_away *)
Definition async_set_mode_away : Py Sys unit :=
  location_id <- this _flo_location_id ;;
  api_client (set_location_mode location_id "away" []) ;;
  ret tt.

(** FloDeviceDataUpdateCoordinator.async_set_mode_sleep *)
Definition async_set_mode_sleep (sleep_minutes revert_to_mode : json) : Py Sys unit :=
  location_id <- this _flo_location_id ;;
  api_client (set_location_mode location_id "sleep"
                [("revertMinutes", sleep_minutes); ("revertMode", revert_to_mode)]) ;;
  ret tt.

(** FloDeviceDataUpdateCoordinator.async_run_health_test *)
Definition async_run_health_test : Py Sys unit :=
  device_id <- this _flo_device_id ;;
  api_client (run_health_test device_id) ;;
  ret tt.

(** [v[k1][k2]...] *)
Fixpoint subscripts (v : json) (keys : list string) : result json :=
  match keys with
  | [] => Returns v
  | k :: rest => rbind (subscript v k) (fun x => subscripts x rest)
  end.

(** FloDeviceDataUpdateCoordinator.location_id *)
Definition location_id (c : Coordinator) : string := _flo_location_id c.

(** FloDeviceDataUpdateCoordinator.id *)
Definition id (c : Coordinator) : string := _flo_device_id c.

(** FloDeviceDataUpdateCoordinator.mac_address *)
Definition mac_address (c : Coordinator) : result json :=
  subscripts (_device_information c) ["macAddress"].

(** FloDeviceDataUpdateCoordinator.rssi *)
Definition rssi (c : Coordinator) : result json :=
  subscripts (_device_information c) ["connectivity"; "rssi"].

(** FloDeviceDataUpdateCoordinator.last_heard_from_time *)
Definition last_heard_from_time (c : Coordinator) : result json :=
  subscripts (_device_information c) ["lastHeardFromTime"].

(** FloDeviceDataUpdateCoordinator.device_type *)
Definition device_type (c : Coordinator) : result json :=
  subscripts (_device_information c) ["deviceType"].

(** FloDeviceDataUpdateCoordinator.available; [last_update_success] is
    the attribute the base class keeps.  [a and b] is [a] when [a] is
    false, and [b] otherwise. *)
Definition available (last_update_success : bool) (c : Coordinator) : result json :=
  if last_update_success then subscripts (_device_information c) ["isConnected"]
  else Returns (JBool false).

(** FloDeviceDataUpdateCoordinator.current_system_mode *)
Definition current_system_mode (c : Coordinator) : result json :=
  subscripts (_device_information c) ["systemMode"; "lastKnown"].

(** FloDeviceDataUpdateCoordinator.target_system_mode *)
Definition target_system_mode (c : Coordinator) : result json :=
  subscripts (_device_information c) ["systemMode"; "target"].

(** FloDeviceDataUpdateCoordinator.current_flow_rate *)
Definition current_flow_rate (c : Coordinator) : result json :=
  subscripts (_device_information c) ["telemetry"; "current"; "gpm"].

(** FloDeviceDataUpdateCoordinator.current_psi *)
Definition current_psi (c : Coordinator) : result json :=
  subscripts (_device_information c) ["telemetry"; "current"; "psi"].

(** FloDeviceDataUpdateCoordinator.temperature *)
Definition temperature (c : Coordinator) : result json :=
  subscripts (_device_information c) ["telemetry"; "current"; "tempF"].

(** FloDeviceDataUpdateCoordinator.humidity *)
Definition humidity (c : Coordinator) : result json :=
  subscripts (_device_information c) ["telemetry"; "current"; "humidity"].

(** FloDeviceDataUpdateCoordinator.firmware_version *)
Definition firmware_version (c : Coordinator) : result json :=
  subscripts (_device_information c) ["fwVersion"].

(** FloDeviceDataUpdateCoordinator.serial_number *)
Definition serial_number (c : Coordinator) : result json :=
  dict_get (_device_information c) "serialNumber" JNull.

(** FloDeviceDataUpdateCoordinator.pending_info_alerts_count *)
Definition pending_info_alerts_count (c : Coordinator) : result json :=
  subscripts (_device_information c) ["notifications"; "pending"; "infoCount"].

(** FloDeviceDataUpdateCoordinator.pending_warning_alerts_count *)
Definition pending_warning_alerts_count (c : Coordinator) : result json :=
  subscripts (_device_information c) ["notifications"; "pending"; "warningCount"].

(** FloDeviceDataUpdateCoordinator.pending_critical_alerts_count *)
Definition pending_critical_alerts_count (c : Coordinator) : result json :=
  subscripts (_device_information c) ["notifications"; "pending"; "criticalCount"].

(** [a or b]: [b] is evaluated only when [a] returned something false. *)
Definition py_or (a b : result json) : result json :=
  rbind a (fun x => if truthy x then Returns x else b).

(** FloDeviceDataUpdateCoordinator.has_alerts *)
Definition has_alerts (c : Coordinator) : result bool :=
  rbind (py_or (pending_info_alerts_count c)
               (py_or (pending_warning_alerts_count c)
                      (pending_critical_alerts_count c)))
        (fun v => Returns (truthy v)).

(** FloDeviceDataUpdateCoordinator.water_detected *)
Definition water_detected (c : Coordinator) : result json :=
  subscripts (_device_information c) ["fwProperties"; "telemetry_water"].

(** FloDeviceDataUpdateCoordinator.last_known_valve_state *)
Definition last_known_valve_state (c : Coordinator) : result json :=
  subscripts (_device_information c) ["valve"; "lastKnown"].

(** FloDeviceDataUpdateCoordinator.target_valve_state *)
Definition target_valve_state (c : Coordinator) : result json :=
  subscripts (_device_information c) ["valve"; "target"].

(** FloDeviceDataUpdateCoordinator.battery_level *)
Definition battery_level (c : Coordinator) : result json :=
  subscripts (_device_information c) ["battery"; "level"].

(** The exceptions a token exchange can end in. *)
Inductive token_exchange_error : Exn -> Prop :=
| tee_transport : token_exchange_error (FloAuthError ClientError)
| tee_missing k : token_exchange_error (FloAuthError (KeyError k))
| tee_key k : token_exchange_error (KeyError k)
| tee_timeout : token_exchange_error TimeoutError
| tee_decode : token_exchange_error JSONDecodeError
| tee_type : token_exchange_error TypeError
| tee_overflow : token_exchange_error OverflowError
| tee_value : token_exchange_error ValueError.

(** The projections that read the device document with subscripts, each
    with the path of keys it follows. *)
Definition document_projections : list ((Coordinator -> result json) * list string) :=
  [(mac_address, ["macAddress"]);
   (rssi, ["connectivity"; "rssi"]);
   (last_heard_from_time, ["lastHeardFromTime"]);
   (device_type, ["deviceType"]);
   (model, ["deviceModel"]);
   (current_system_mode, ["systemMode"; "lastKnown"]);
   (target_system_mode, ["systemMode"; "target"]);
   (current_flow_rate, ["telemetry"; "current"; "gpm"]);
   (current_psi, ["telemetry"; "current"; "psi"]);
   (temperature, ["telemetry"; "current"; "tempF"]);
   (humidity, ["telemetry"; "current"; "humidity"]);
   (firmware_version, ["fwVersion"]);
   (pending_info_alerts_count, ["notifications"; "pending"; "infoCount"]);
   (pending_warning_alerts_count, ["notifications"; "pending"; "warningCount"]);
   (pending_critical_alerts_count, ["notifications"; "pending"; "criticalCount"]);
   (water_detected, ["fwProperties"; "telemetry_water"]);
   (last_known_valve_state, ["valve"; "lastKnown"]);
   (target_valve_state, ["valve"; "target"]);
   (battery_level, ["battery"; "level"])].

Definition credentials (c : FloAPI) : string * string :=
  (_username c, _password c).

(* ===================================================================== *)
(** ** Basic facts about the model                                       *)
(* ===================================================================== *)

Ltac unfold_py :=
  unfold try_except, bind, ret, raise, py, self, assign, datetime_now,
    session, this, store, api_client, dt_util_now in *.

Lemma subscript_cases v key :
  (exists x, subscript v key = Returns x) \/
  subscript v key = Raises (KeyError key) \/
  subscript v key = Raises TypeError.
Proof.
  destruct v; cbn [subscript]; auto.
  destruct (lookup key fields); eauto.
Qed.

Lemma timedelta_of_microseconds_cases us :
  timedelta_of_microseconds us = Returns us \/
  timedelta_of_microseconds us = Raises OverflowError.
Proof. unfold timedelta_of_microseconds. destruct (timedelta_ok us); auto. Qed.

Lemma timedelta_seconds_cases v :
  (exists d, timedelta_seconds v = Returns d) \/
  timedelta_seconds v = Raises TypeError \/
  timedelta_seconds v = Raises OverflowError \/
  timedelta_seconds v = Raises ValueError.
Proof.
  assert (H : forall us,
             (exists d, timedelta_of_microseconds us = Returns d) \/
             timedelta_of_microseconds us = Raises TypeError \/
             timedelta_of_microseconds us = Raises OverflowError \/
             timedelta_of_microseconds us = Raises ValueError).
  { intros us. destruct (timedelta_of_microseconds_cases us) as [E|E];
      rewrite E; eauto. }
  destruct v; cbn [timedelta_seconds]; auto.
  unfold timedelta_seconds_float. destruct x; auto.
  destruct (modf_frac s m e); auto.
  destruct (SFmul 53 1024 _ _); auto.
Qed.

Lemma datetime_add_cases t d :
  (datetime_ok (t + d) = true /\ datetime_add t d = Returns (t + d)) \/
  (datetime_ok (t + d) = false /\ datetime_add t d = Raises OverflowError).
Proof. unfold datetime_add. destruct (datetime_ok (t + d)); auto. Qed.

Lemma datetime_sub_cases t d :
  (datetime_ok (t - d) = true /\ datetime_sub t d = Returns (t - d)) \/
  (datetime_ok (t - d) = false /\ datetime_sub t d = Raises OverflowError).
Proof. unfold datetime_sub. destruct (datetime_ok (t - d)); auto. Qed.

Lemma py_in_cases key v :
  (exists b, py_in key v = Returns b) \/ py_in key v = Raises TypeError.
Proof. destruct v; cbn [py_in]; eauto. Qed.

(** Case analysis on the next pure test the code performs. *)
Ltac case_step :=
  let E := fresh "E" in
  match goal with
  | |- context [match subscript ?b ?k with _ => _ end] =>
      destruct (subscript_cases b k) as [[? E]|[E|E]]; rewrite E
  | |- context [match timedelta_seconds ?v with _ => _ end] =>
      destruct (timedelta_seconds_cases v) as [[? E]|[E|[E|E]]]; rewrite E
  | |- context [match datetime_add ?t ?d with _ => _ end] =>
      destruct (datetime_add_cases t d) as [[? E]|[? E]]; rewrite E
  | |- context [match py_in ?k ?b with _ => _ end] =>
      destruct (py_in_cases k b) as [[? E]|E]; rewrite E
  | |- context [if ?b then _ else _] =>
      is_var b; destruct b
  end; cbv beta iota; cbn [fst snd] in *.

Lemma issued_refl w : issued w w [].
Proof. reflexivity. Qed.

Lemma issued_trans w1 w2 w3 xs ys :
  issued w1 w2 xs -> issued w2 w3 ys -> issued w1 w3 (ys ++ xs)%list.
Proof.
  unfold issued. intros H1 H2. rewrite H2, H1. now rewrite app_assoc.
Qed.

Lemma http_issued call w :
  issued w (snd (http call w))
         [mkExchange call (now w + elapsed (script w (cursor w)))
                     (outcome (script w (cursor w)))].
Proof. reflexivity. Qed.

(** [authenticate] performs exactly one call, the password-grant POST,
    whatever comes back. *)
Lemma authenticate_world c w :
  snd (snd (authenticate (c, w))) =
  snd (http (token_post (password_grant (_username c) (_password c))) w).
Proof.
  unfold authenticate. unfold_py. cbn [fst snd]. unfold http.
  destruct (outcome (script w (cursor w))); cbn [result_of_outcome];
    try reflexivity.
  repeat (case_step; try reflexivity).
Qed.

Lemma refresh_no_refresh_token c w :
  truthy (_refresh_token c) = false ->
  refresh_access_token (c, w) = authenticate (c, w).
Proof.
  intros H. unfold refresh_access_token, bind, self. cbn [fst snd].
  rewrite H. reflexivity.
Qed.

(** What [authenticate] leaves when the POST itself fails. *)
Lemma authenticate_transport_failure c w :
  outcome (script w (cursor w)) = NetClientError ->
  authenticate (c, w) =
  (Raises (FloAuthError ClientError),
   (c, snd (http (token_post (password_grant (_username c) (_password c))) w))).
Proof.
  intros H. unfold authenticate. unfold_py. cbn [fst snd]. unfold http.
  rewrite H. reflexivity.
Qed.

(** A call of [authenticate] that returns has read all four fields of
    one response and stored them. *)
Lemma authenticate_returns c w s' :
  authenticate (c, w) = (Returns tt, s') ->
  exists body a r u e d,
    outcome (script w (cursor w)) = NetJson body /\
    subscript body "access_token" = Returns a /\
    subscript body "refresh_token" = Returns r /\
    subscript body "user_id" = Returns u /\
    subscript body "expires_in" = Returns e /\
    timedelta_seconds e = Returns d /\
    datetime_ok (now w + elapsed (script w (cursor w)) + d) = true /\
    s' = (mkFloAPI (_username c) (_password c) a r
                   (Some (now w + elapsed (script w (cursor w)) + d)) u,
          snd (http (token_post (password_grant (_username c) (_password c))) w)).
Proof.
  unfold authenticate. unfold_py. cbn [fst snd]. unfold http.
  destruct (outcome (script w (cursor w))) as [body| | |] eqn:Eo;
    cbn [result_of_outcome fst snd]; try discriminate.
  repeat case_step; try discriminate.
  intros Hs. injection Hs as <-.
  exists body. do 5 eexists. repeat split; eauto.
Qed.

(** The calls [refresh_access_token] performs when a refresh token is
    held: the refresh-grant POST, followed by the password-grant POST of
    the fallback when the first fails in transport. *)
Lemma refresh_world c w :
  truthy (_refresh_token c) = true ->
  snd (snd (refresh_access_token (c, w))) =
  let w1 := snd (http (token_post (refresh_grant (_refresh_token c))) w) in
  match outcome (script w (cursor w)) with
  | NetClientError =>
      snd (http (token_post (password_grant (_username c) (_password c))) w1)
  | _ => w1
  end.
Proof.
  intros H. unfold refresh_access_token.
  unfold bind at 1. unfold self at 1. cbn [fst snd]. rewrite H. cbn [negb].
  unfold try_except at 1.
  destruct (outcome (script w (cursor w))) as [body| | |] eqn:Eo.
  - unfold_py. cbn [fst snd]. unfold http. rewrite Eo.
    cbn [result_of_outcome fst snd].
    repeat (case_step; try reflexivity).
  - unfold bind at 1. unfold session at 1. cbn [fst snd]. unfold http at 1.
    rewrite Eo. cbn [result_of_outcome fst snd].
    rewrite authenticate_world. unfold http. cbn [fst snd].
    rewrite Eo. reflexivity.
  - unfold_py. cbn [fst snd]. unfold http. rewrite Eo. reflexivity.
  - unfold_py. cbn [fst snd]. unfold http. rewrite Eo. reflexivity.
Qed.

(** Every run of [authenticate] performs one token POST. *)
Lemma authenticate_issued c w :
  exists x, issued w (snd (snd (authenticate (c, w)))) [x] /\ is_token_post x.
Proof.
  rewrite authenticate_world. eexists. split; [apply http_issued|].
  split; reflexivity.
Qed.

(** Every run of [refresh_access_token] performs one token POST, or two
    when it falls back after a transport failure. *)
Lemma refresh_issued c w :
  exists xs, issued w (snd (snd (refresh_access_token (c, w)))) xs /\
             (1 <= List.length xs <= 2)%nat /\ Forall is_token_post xs.
Proof.
  destruct (truthy (_refresh_token c)) eqn:Hr.
  - rewrite (refresh_world c w Hr). cbn zeta.
    destruct (outcome (script w (cursor w))) eqn:Eo.
    2:{ eexists [_; _]. split; [reflexivity|]. cbn [List.length]. split; [lia|].
        repeat constructor. }
    all: eexists [_]; (split; [reflexivity|]); cbn [List.length];
      (split; [lia|]); repeat constructor.
  - assert (E : refresh_access_token (c, w) = authenticate (c, w)).
    { unfold refresh_access_token, bind, self. cbn [fst snd].
      rewrite Hr. reflexivity. }
    rewrite E. destruct (authenticate_issued c w) as [x [Hx Hp]].
    exists [x]. cbn [List.length]. repeat split; auto.
Qed.

(* ===================================================================== *)
(** ** The token gate                                                    *)
(* ===================================================================== *)

Lemma ensure_no_token c w :
  no_token c -> _ensure_token_valid (c, w) = authenticate (c, w).
Proof.
  intros [H | H]; unfold _ensure_token_valid; unfold bind at 1 2;
    unfold self at 1 2; cbn [fst snd]; rewrite H; [reflexivity|].
  destruct (truthy (_access_token c)); reflexivity.
Qed.

Lemma ensure_near_expiry c w :
  expires_within (minutes 5) c (now w) ->
  _ensure_token_valid (c, w) = refresh_access_token (c, w).
Proof.
  intros [Ht [e [He [Hok Hle]]]]. unfold _ensure_token_valid.
  unfold bind at 1 2; unfold self at 1 2; cbn [fst snd]. rewrite Ht, He.
  unfold bind at 1; unfold datetime_now at 1; cbn [fst snd].
  unfold bind, py, datetime_sub. rewrite Hok.
  destruct (Z.geb_spec (now w) (e - minutes 5)); [reflexivity | lia].
Qed.

Lemma ensure_far_from_expiry c w :
  expires_after (minutes 5) c (now w) ->
  _ensure_token_valid (c, w) = (Returns tt, (c, w)).
Proof.
  intros [Ht [e [He [Hok Hgt]]]]. unfold _ensure_token_valid.
  unfold bind at 1 2; unfold self at 1 2; cbn [fst snd]. rewrite Ht, He.
  unfold bind at 1; unfold datetime_now at 1; cbn [fst snd].
  unfold bind, py, datetime_sub. rewrite Hok.
  destruct (Z.geb_spec (now w) (e - minutes 5)); [lia | reflexivity].
Qed.

(** An expiration less than five minutes after [datetime.min]: the
    subtraction in the gate raises, and nothing else happens. *)
Lemma ensure_expiration_too_early c w :
  expiration_too_early (minutes 5) c ->
  _ensure_token_valid (c, w) = (Raises OverflowError, (c, w)).
Proof.
  intros [Ht [e [He Hok]]]. unfold _ensure_token_valid.
  unfold bind at 1 2; unfold self at 1 2; cbn [fst snd]. rewrite Ht, He.
  unfold bind at 1; unfold datetime_now at 1; cbn [fst snd].
  unfold bind, py, datetime_sub. rewrite Hok. reflexivity.
Qed.

(** The four kinds cover every token state. *)
Lemma token_state_cases c t :
  no_token c \/ expires_within (minutes 5) c t \/
  expires_after (minutes 5) c t \/ expiration_too_early (minutes 5) c.
Proof.
  unfold no_token, expires_within, expires_after, expiration_too_early.
  destruct (truthy (_access_token c)); [|auto].
  destruct (_token_expiration c) as [e|]; [|auto].
  right. destruct (datetime_ok (e - minutes 5)) eqn:Hok.
  - destruct (Z_le_gt_dec (e - t) (minutes 5)); [left | right; left]; eauto 6.
  - right. right. eauto.
Qed.

(** [request] runs the gate first: an error of the gate is the error of
    the request, and otherwise the request's own call follows, carrying
    the token the gate left. *)
Lemma request_unfold method path kwargs s :
  request method path kwargs s =
  match _ensure_token_valid s with
  | (Returns _, s1) =>
      let (r, w) := http (request_call method path kwargs
                                       (_access_token (fst s1))) (snd s1) in
      (wrap_request_error r, (fst s1, w))
  | (Raises e, s1) => (Raises e, s1)
  end.
Proof.
  unfold request. unfold bind at 1.
  destruct (_ensure_token_valid s) as [[u|e] s1]; [|reflexivity].
  unfold_py. unfold http, request_call. cbn [fst snd].
  destruct (outcome (script (snd s1) (cursor (snd s1))));
    reflexivity.
Qed.

Lemma request_fresh method path kwargs c w :
  expires_after (minutes 5) c (now w) ->
  request method path kwargs (c, w) =
  (wrap_request_error (result_of_outcome (outcome (script w (cursor w)))),
   (c, snd (http (request_call method path kwargs (_access_token c)) w))).
Proof.
  intros H. rewrite request_unfold, (ensure_far_from_expiry c w H).
  reflexivity.
Qed.

(** A token about to expire, a refresh POST that fails in transport, a
    password POST that succeeds: before the request's own call the gate
    has called [refresh_access_token], which has called [authenticate];
    two token POSTs have been made, not one. *)
Lemma gate_refresh_then_authenticate :
  let s := (signed_in,
            fresh_world (seconds 3596)
              (replies [mkReply 100000 NetClientError;
                        mkReply 250000 (NetJson (token_body "tok-2" "ref-2" 3600));
                        mkReply 100000 (NetJson device_document)])) in
  expires_within (minutes 5) (fst s) (now (snd s)) /\
  map request_of (history (snd (snd (_ensure_token_valid s)))) =
    [token_post (password_grant "user@example.com" "secret");
     token_post (refresh_grant (JStr "ref-1"))] /\
  map request_of
      (history (snd (snd (request "get" "/devices/dev-1" no_kwargs s)))) =
    [request_call "get" "/devices/dev-1" no_kwargs (JStr "tok-2");
     token_post (password_grant "user@example.com" "secret");
     token_post (refresh_grant (JStr "ref-1"))] /\
  fst (request "get" "/devices/dev-1" no_kwargs s) = Returns device_document.
Proof.
  cbv zeta. split.
  - split; [reflexivity|]. exists (seconds 3600).
    split; [reflexivity|]. split; [reflexivity|]. vm_compute. discriminate.
  - repeat split.
Qed.

(** C2, as the code has it.  With no access token or no expiration
    held the gate is one call of [authenticate]; with an expiration at
    most five minutes after the current time it is one call of
    [refresh_access_token]; with an expiration more than five minutes
    away it returns at once and leaves client and world as they were, so
    no network call is made.  The one call the gate makes performs one
    token POST, except that a refresh with a refresh token held whose
    POST fails in transport goes on to [authenticate]: then two token
    POSTs are made, the refresh grant and the password grant.  These
    cases suppose that five minutes before the expiration held is a
    [datetime]; the only other token state is an expiration within the
    first five minutes of year 1, where the subtraction is an
    [OverflowError] and nothing is called.  In [request] all of this
    precedes the request's own call. *)
Theorem ensure_token_valid_gate (c : FloAPI) (w : World) :
  let after := snd (snd (_ensure_token_valid (c, w))) in
  let password_post := token_post (password_grant (_username c) (_password c)) in
  let refresh_post := token_post (refresh_grant (_refresh_token c)) in
  (no_token c ->
   _ensure_token_valid (c, w) = authenticate (c, w) /\
   exists xs, issued w after xs /\ map request_of xs = [password_post]) /\
  (expires_within (minutes 5) c (now w) ->
   _ensure_token_valid (c, w) = refresh_access_token (c, w) /\
   exists xs,
     issued w after xs /\
     map request_of xs =
     if truthy (_refresh_token c) then
       match outcome (script w (cursor w)) with
       | NetClientError => [password_post; refresh_post]
       | _ => [refresh_post]
       end
     else [password_post]) /\
  (expires_after (minutes 5) c (now w) ->
   _ensure_token_valid (c, w) = (Returns tt, (c, w))) /\
  (expiration_too_early (minutes 5) c ->
   _ensure_token_valid (c, w) = (Raises OverflowError, (c, w))) /\
  (no_token c \/ expires_within (minutes 5) c (now w) \/
   expires_after (minutes 5) c (now w) \/ expiration_too_early (minutes 5) c) /\
  (forall method path kwargs,
     request method path kwargs (c, w) =
     match _ensure_token_valid (c, w) with
     | (Returns _, s1) =>
         let (r, w1) := http (request_call method path kwargs
                                           (_access_token (fst s1))) (snd s1) in
         (wrap_request_error r, (fst s1, w1))
     | (Raises e, s1) => (Raises e, s1)
     end).
Proof.
  cbv zeta. split; [|split; [|split; [|split; [|split]]]].
  - intros H. rewrite (ensure_no_token c w H). split; [reflexivity|].
    rewrite authenticate_world. eexists. split; [apply http_issued | reflexivity].
  - intros H. rewrite (ensure_near_expiry c w H). split; [reflexivity|].
    destruct (truthy (_refresh_token c)) eqn:Hr.
    + rewrite (refresh_world c w Hr). cbv zeta.
      destruct (outcome (script w (cursor w))) eqn:Ho.
      2:{ eexists [_; _]. split; [reflexivity | reflexivity]. }
      all: eexists [_]; split; reflexivity.
    + rewrite (refresh_no_refresh_token c w Hr), authenticate_world.
      eexists. split; [apply http_issued | reflexivity].
  - apply ensure_far_from_expiry.
  - apply ensure_expiration_too_early.
  - apply token_state_cases.
  - intros. apply request_unfold.
Qed.

Lemma ensure_token_valid_gate_witness :
  let down := fresh_world (seconds 3596) (always NetClientError) in
  _ensure_token_valid (FloAPI_init "user@example.com" "secret", down) =
    authenticate (FloAPI_init "user@example.com" "secret", down) /\
  _ensure_token_valid (signed_in, down) = refresh_access_token (signed_in, down) /\
  _ensure_token_valid (signed_in, fresh_world (seconds 60) (always NetClientError)) =
    (Returns tt, (signed_in, fresh_world (seconds 60) (always NetClientError))).
Proof.
  cbv zeta. split; [|split].
  - refine (proj1 (proj1 (ensure_token_valid_gate _ _) _)). left. reflexivity.
  - refine (proj1 (proj1 (proj2 (ensure_token_valid_gate _ _)) _)).
    split; [reflexivity|]. exists (seconds 3600).
    split; [reflexivity|]. split; [reflexivity|]. vm_compute. discriminate.
  - apply (proj1 (proj2 (proj2 (ensure_token_valid_gate _ _)))).
    split; [reflexivity|]. exists (seconds 3600).
    split; [reflexivity|]. split; reflexivity.
Defined.

(* ===================================================================== *)
(** ** Refreshing                                                        *)
(* ===================================================================== *)

(** C8.  When no refresh token is held, [refresh_access_token] is
    [authenticate]: the same result, error or not, and the same state of
    client and world after it. *)
Theorem refresh_without_refresh_token (c : FloAPI) (w : World) :
  truthy (_refresh_token c) = false ->
  refresh_access_token (c, w) = authenticate (c, w).
Proof.
  intros H. unfold refresh_access_token, bind, self. cbn [fst snd].
  rewrite H. reflexivity.
Qed.

Lemma refresh_without_refresh_token_witness :
  let s := (FloAPI_init "user@example.com" "secret",
            fresh_world 0 (replies [mkReply 250000
                                     (NetJson (token_body "tok-1" "ref-1" 3600))])) in
  truthy (_refresh_token (fst s)) = false /\
  refresh_access_token s = authenticate s /\
  refresh_access_token s =
    (Returns tt,
     (mkFloAPI "user@example.com" "secret" (JStr "tok-1") (JStr "ref-1")
               (Some (250000 + seconds 3600)) (JStr "user-1"),
      snd (snd (authenticate s)))).
Proof.
  cbv zeta. split; [reflexivity|]. split.
  - apply (refresh_without_refresh_token (FloAPI_init "user@example.com" "secret")).
    reflexivity.
  - reflexivity.
Defined.

(** With a refresh token held and the refresh-grant POST failing in
    transport, the rest of [refresh_access_token] is [authenticate],
    started on the untouched client. *)
Lemma refresh_transport_failure c w :
  truthy (_refresh_token c) = true ->
  outcome (script w (cursor w)) = NetClientError ->
  refresh_access_token (c, w) =
  authenticate (c, snd (http (token_post (refresh_grant (_refresh_token c))) w)).
Proof.
  intros Hr Ho. unfold refresh_access_token.
  unfold bind at 1. unfold self at 1. cbn [fst snd]. rewrite Hr. cbn [negb].
  unfold try_except at 1. unfold bind at 1. unfold session at 1.
  cbn [fst snd]. unfold http. rewrite Ho. reflexivity.
Qed.

(** C7.  A client that holds a refresh token and whose refresh-grant
    POST fails in transport goes on to [authenticate]; when that
    succeeds, [refresh_access_token] returns without error, in the state
    [authenticate] produced: access token, refresh token, user id and
    expiration all come from the response to the password-grant POST. *)
Theorem refresh_falls_back_to_authenticate (c : FloAPI) (w : World) (s' : ApiState) :
  truthy (_refresh_token c) = true ->
  outcome (script w (cursor w)) = NetClientError ->
  authenticate (c, snd (http (token_post (refresh_grant (_refresh_token c))) w))
    = (Returns tt, s') ->
  refresh_access_token (c, w) = (Returns tt, s') /\
  exists body a r u e d,
    outcome (script w (S (cursor w))) = NetJson body /\
    subscript body "access_token" = Returns a /\
    subscript body "refresh_token" = Returns r /\
    subscript body "user_id" = Returns u /\
    subscript body "expires_in" = Returns e /\
    timedelta_seconds e = Returns d /\
    fst s' = mkFloAPI (_username c) (_password c) a r
                      (Some (now (snd s') + d)) u /\
    now (snd s') = now w + elapsed (script w (cursor w))
                         + elapsed (script w (S (cursor w))).
Proof.
  intros Hr Ho Ha. split.
  - rewrite (refresh_transport_failure c w Hr Ho). exact Ha.
  - apply authenticate_returns in Ha.
    destruct Ha as (body & a & r & u & e & d & H1 & H2 & H3 & H4 & H5 & H6 & _ & ->).
    exists body, a, r, u, e, d. cbn [fst snd http now script cursor] in *.
    repeat split; auto.
Qed.

Lemma refresh_falls_back_to_authenticate_witness :
  let w := fresh_world (seconds 3596)
             (replies [mkReply 1000000 NetClientError;
                       mkReply 500000 (NetJson (token_body "tok-2" "ref-2" 3600))]) in
  exists w',
    refresh_access_token (signed_in, w) =
    (Returns tt,
     (mkFloAPI "user@example.com" "secret" (JStr "tok-2") (JStr "ref-2")
               (Some (seconds 3596 + 1500000 + seconds 3600)) (JStr "user-1"),
      w')).
Proof.
  cbv zeta. eexists.
  refine (proj1 (refresh_falls_back_to_authenticate signed_in _ _ _ _ _)).
  - reflexivity.
  - reflexivity.
  - reflexivity.
Defined.

(* ===================================================================== *)
(** ** The update cycle                                                  *)
(* ===================================================================== *)

Lemma cycle_unfold s :
  cycle s =
  match update_cycle_body s with
  | (Returns a, s1) => (Returns a, s1)
  | (Raises e, s1) =>
      if soft_failure e then count_failure e s1 else (Raises e, s1)
  end.
Proof.
  unfold cycle, _async_update_data, try_except.
  destruct (update_cycle_body s) as [[a|e] s1]; [reflexivity|].
  unfold update_cycle_handler. destruct (soft_failure e); [|reflexivity].
  unfold count_failure, failures. unfold_py. cbn [fst snd set_failure_count _failure_count].
  destruct (_failure_count (fst s1) + 1 >? 3); reflexivity.
Qed.

(** The [try] block, step by step: where it stops and what it has
    stored by then. *)
Lemma update_cycle_body_steps (s : Sys) :
  let c := fst s in
  match send_presence_ping (snd s) with
  | (Raises e, a1) => update_cycle_body s = (Raises e, (c, a1))
  | (Returns _, a1) =>
      match get_device_info (_flo_device_id c) a1 with
      | (Raises e, a2) => update_cycle_body s = (Raises e, (c, a2))
      | (Returns info, a2) =>
          let c2 := set_device_information info c in
          match get_consumption_info (_flo_location_id c)
                  (start_of_day (now (snd a2))) (end_of_day (now (snd a2))) a2 with
          | (Returns usage, a3) =>
              update_cycle_body s =
              (Returns tt, (set_failure_count 0 (set_water_usage usage c2), a3))
          | (Raises e, a3) =>
              update_cycle_body s =
              match e with
              | FloRequestError _ =>
                  (Returns tt,
                   (set_failure_count 0 (set_water_usage (JObj []) c2), a3))
              | _ => (Raises e, (c2, a3))
              end
          end
      end
  end.
Proof.
  destruct s as [c a0]. cbn [fst snd].
  unfold update_cycle_body, coordinator_send_presence_ping, _update_device,
    _update_consumption_data.
  unfold_py. cbn [fst snd].
  destruct (send_presence_ping a0) as [[p|e] a1]; [|reflexivity].
  cbn [fst snd].
  destruct (get_device_info (_flo_device_id c) a1) as [[info|e] a2];
    [|reflexivity].
  cbn [fst snd set_device_information _flo_location_id].
  destruct (get_consumption_info _ _ _ a2) as [[usage|e] a3]; [reflexivity|].
  destruct e; reflexivity.
Qed.

(** The [try] block sets the failure counter only as its last step, so a
    block that raises leaves the counter as it found it. *)
Lemma update_cycle_body_raises_count s e s1 :
  update_cycle_body s = (Raises e, s1) -> failures s1 = failures s.
Proof.
  intros H. pose proof (update_cycle_body_steps s) as S. cbv zeta in S.
  unfold failures.
  destruct (send_presence_ping (snd s)) as [[p|e1] a1].
  2:{ rewrite S in H. now inversion H. }
  destruct (get_device_info _ a1) as [[info|e2] a2].
  2:{ rewrite S in H. now inversion H. }
  destruct (get_consumption_info _ _ _ a2) as [[usage|e3] a3].
  { rewrite S in H. discriminate. }
  rewrite S in H. destruct e3; inversion H; reflexivity.
Qed.

Lemma fails_softly_inv s :
  fails_softly s = true ->
  exists e s1, update_cycle_body s = (Raises e, s1) /\ soft_failure e = true.
Proof.
  unfold fails_softly. destruct (update_cycle_body s) as [[a|e] s1];
    [discriminate | eauto].
Qed.

(** One softly failing cycle: the counter goes up by one and the cycle
    raises [UpdateFailed] exactly when the new count is above 3. *)
Lemma soft_failure_cycle s :
  fails_softly s = true ->
  exists e,
    soft_failure e = true /\
    fst (cycle s) =
      (if failures s + 1 >? 3 then Raises (UpdateFailed e) else Returns tt) /\
    failures (snd (cycle s)) = failures s + 1.
Proof.
  intros H. destruct (fails_softly_inv s H) as (e & s1 & Hb & He).
  exists e. split; [exact He|].
  rewrite cycle_unfold, Hb, He. unfold count_failure. cbn [fst snd].
  rewrite (update_cycle_body_raises_count s e s1 Hb). split; reflexivity.
Qed.

(** A streak of soft failures: the i-th of them (from 0) is reported as
    failed exactly when the count it reaches is above 3. *)
Lemma soft_streak_reports n : forall s,
  soft_streak n s = true ->
  failures (snd (poll n s)) = failures s + Z.of_nat n /\
  map reported_failed (fst (poll n s)) =
  map (fun i => failures s + Z.of_nat i + 1 >? 3) (seq 0 n).
Proof.
  induction n as [|n IH]; intros s H.
  - cbn. split; [lia | reflexivity].
  - cbn [soft_streak] in H. apply andb_prop in H. destruct H as [Hs Hn].
    destruct (soft_failure_cycle s Hs) as (e & He & Hr & Hc).
    destruct (IH _ Hn) as [IHc IHr].
    cbn [poll]. destruct (cycle s) as [r s1]. cbn [fst snd] in *.
    destruct (poll n s1) as [rs s2]. cbn [fst snd] in *.
    split; [lia|].
    cbn [map seq]. f_equal.
    + rewrite Hr. replace (failures s + Z.of_nat 0 + 1) with (failures s + 1) by lia.
      destruct (failures s + 1 >? 3); reflexivity.
    + rewrite IHr, <- seq_shift, map_map. apply map_ext. intros i.
      rewrite Hc. f_equal. lia.
Qed.

(** What the [try] block does when one of its three API calls raises:
    a [FloRequestError] of the consumption fetch is swallowed and the
    block completes; anything else ends the block. *)
Lemma first_failure_body (s : Sys) :
  match first_failure s with
  | Some (AtConsumption, FloRequestError _) =>
      exists c a,
        update_cycle_body s =
        (Returns tt, (set_failure_count 0 (set_water_usage (JObj []) c), a))
  | Some (_, e) => exists s1, update_cycle_body s = (Raises e, s1)
  | None => exists s1, update_cycle_body s = (Returns tt, s1)
  end.
Proof.
  pose proof (update_cycle_body_steps s) as Hsteps. cbv zeta in Hsteps.
  unfold first_failure.
  destruct (send_presence_ping (snd s)) as [[p|e1] a1]; [|eauto].
  destruct (get_device_info _ a1) as [[info|e2] a2]; [|eauto].
  destruct (get_consumption_info _ _ _ a2) as [[usage|e3] a3]; [eauto|].
  destruct e3; eauto.
Qed.

(** One cycle that stops at a request error of the ping or the device
    fetch, or at a timeout or a malformed reply of any call. *)
Lemma counted_failure_cycle (s : Sys) (step : Step) (e : Exn) :
  first_failure s = Some (step, e) ->
  (exists cause, e = FloRequestError cause /\ step <> AtConsumption) \/
  e = TimeoutError \/ e = JSONDecodeError ->
  exists s1,
    update_cycle_body s = (Raises e, s1) /\
    cycle s =
    (if failures s + 1 >? 3 then Raises (UpdateFailed e) else Returns tt,
     (set_failure_count (failures s + 1) (fst s1), snd s1)).
Proof.
  intros Hf He. pose proof (first_failure_body s) as Hb. rewrite Hf in Hb.
  assert (H : exists s1, update_cycle_body s = (Raises e, s1) /\
                         soft_failure e = true).
  { destruct He as [(cause & -> & Hstep) | [-> | ->]].
    - destruct step; [| |congruence]; destruct Hb as [s1 Hb]; eauto.
    - destruct step; destruct Hb as [s1 Hb]; eauto.
    - destruct step; destruct Hb as [s1 Hb]; eauto. }
  destruct H as (s1 & Hr & Hs). exists s1. split; [exact Hr|].
  rewrite cycle_unfold, Hr, Hs. unfold count_failure.
  rewrite (update_cycle_body_raises_count s e s1 Hr). reflexivity.
Qed.






(** C3.  When the presence ping and the device fetch return and the
    consumption fetch raises [FloRequestError], the cycle returns
    normally: the device document is the one just fetched, the
    consumption document is the empty dict and the failure counter is 0. *)
Theorem consumption_failure_is_not_fatal
        (s : Sys) (p info : json) (cause : Exn) (a1 a2 a3 : ApiState) :
  send_presence_ping (snd s) = (Returns p, a1) ->
  get_device_info (_flo_device_id (fst s)) a1 = (Returns info, a2) ->
  get_consumption_info (_flo_location_id (fst s))
    (start_of_day (now (snd a2))) (end_of_day (now (snd a2))) a2
    = (Raises (FloRequestError cause), a3) ->
  cycle s =
  (Returns tt,
   (mkCoordinator (_flo_location_id (fst s)) (_flo_device_id (fst s))
                  (_manufacturer (fst s)) info (JObj []) 0,
    a3)).
Proof.
  intros H1 H2 H3. pose proof (update_cycle_body_steps s) as S.
  cbv zeta in S. rewrite H1, H2, H3 in S.
  rewrite cycle_unfold, S. reflexivity.
Qed.

Lemma consumption_failure_is_not_fatal_witness :
  let s := (polled_device,
            (signed_in,
             fresh_world (seconds 60)
               (replies [mkReply 100000 (NetJson (JObj []));
                         mkReply 100000 (NetJson device_document);
                         mkReply 100000 NetClientError]))) in
  fst (cycle s) = Returns tt /\
  fst (snd (cycle s)) =
    mkCoordinator "loc-1" "dev-1" "Flo by Moen" device_document (JObj []) 0.
Proof.
  cbv zeta.
  assert (E := consumption_failure_is_not_fatal
                 (polled_device,
                  (signed_in,
                   fresh_world (seconds 60)
                     (replies [mkReply 100000 (NetJson (JObj []));
                               mkReply 100000 (NetJson device_document);
                               mkReply 100000 NetClientError])))
                 (JObj []) device_document ClientError _ _ _
                 eq_refl eq_refl eq_refl).
  rewrite E. split; reflexivity.
Defined.

(** C6.  A cycle in which the presence ping raises, or the ping returns
    and the device fetch raises, leaves the coordinator as it was except
    for the failure counter: device document, consumption document and
    identifiers are untouched.  The counter goes up by one for the three
    exceptions the [except] clause names and stays for any other. *)
Theorem failed_cycle_keeps_documents (s : Sys) (e : Exn) (a' : ApiState) :
  (send_presence_ping (snd s) = (Raises e, a') \/
   exists p a1,
     send_presence_ping (snd s) = (Returns p, a1) /\
     get_device_info (_flo_device_id (fst s)) a1 = (Raises e, a')) ->
  snd (cycle s) =
    (set_failure_count
       (if soft_failure e then failures s + 1 else failures s) (fst s), a') /\
  _device_information (fst (snd (cycle s))) = _device_information (fst s) /\
  _water_usage (fst (snd (cycle s))) = _water_usage (fst s).
Proof.
  intros H.
  assert (Hb : update_cycle_body s = (Raises e, (fst s, a'))).
  { pose proof (update_cycle_body_steps s) as S. cbv zeta in S.
    destruct H as [H | (p & a1 & H1 & H2)].
    - rewrite H in S. exact S.
    - rewrite H1, H2 in S. exact S. }
  rewrite cycle_unfold, Hb. unfold count_failure, failures.
  destruct (soft_failure e); cbn [fst snd].
  - repeat split.
  - destruct s as [[l d m di wu n] a]. repeat split.
Qed.

Lemma failed_cycle_keeps_documents_witness :
  let s := (polled_device,
            (signed_in,
             fresh_world (seconds 60)
               (replies [mkReply 100000 (NetJson (JObj []));
                         mkReply 100000 NetBadJson]))) in
  _device_information (fst (snd (cycle s))) = device_document /\
  _water_usage (fst (snd (cycle s))) = consumption_document /\
  failures (snd (cycle s)) = 1.
Proof.
  cbv zeta.
  destruct (failed_cycle_keeps_documents
              (polled_device,
               (signed_in,
                fresh_world (seconds 60)
                  (replies [mkReply 100000 (NetJson (JObj []));
                            mkReply 100000 NetBadJson])))
              JSONDecodeError _
              (or_intror (ex_intro _ (JObj []) (ex_intro _ _ (conj eq_refl eq_refl)))))
    as (E & Hd & Hw).
  split; [exact Hd|]. split; [exact Hw|]. rewrite E. reflexivity.
Defined.

(** A steady-state poll in which an authentication error escapes: the
    token is about to expire, the gate refreshes, the refresh POST and
    the fallback's password POST both fail in transport, and
    [authenticate] raises [FloAuthError].  The update method raises that
    very error, with the failure counter still at 0. *)
Lemma auth_error_escapes_update :
  let s := (polled_device,
            (signed_in, fresh_world (seconds 3596) (always NetClientError))) in
  fst (cycle s) = Raises (FloAuthError ClientError) /\
  failures s = 0 /\
  failures (snd (cycle s)) = 0 /\
  (failures (snd (cycle s)) <=? 3) = true.
Proof. cbv zeta. repeat split. Qed.

(** The update method never lets one of the three named exceptions out:
    what it raises is [UpdateFailed] or an exception the [except] clause
    does not name. *)
Lemma cycle_never_raises_soft s e :
  fst (cycle s) = Raises e -> soft_failure e = false.
Proof.
  rewrite cycle_unfold.
  destruct (update_cycle_body s) as [[a|e1] s1]; [discriminate|].
  destruct (soft_failure e1) eqn:He.
  - unfold count_failure. cbn [fst].
    destruct (failures s1 + 1 >? 3); [|discriminate].
    intros E. inversion E. reflexivity.
  - cbn [fst]. intros E. inversion E. subst. exact He.
Qed.

(** C5, as the code has it.  Of the errors raised by an API call of a
    cycle, a [FloRequestError] of the presence ping or the device fetch
    and a [TimeoutError] or [JSONDecodeError] of any call are absorbed
    by the failure counter: the update method returns normally while the
    incremented counter is at most 3 and raises [UpdateFailed] above
    that.  A [FloRequestError] of the consumption fetch is absorbed
    without being counted: the cycle returns normally with an empty
    consumption document and the counter back at 0, whatever it was.
    [FloAuthError] is not named by any [except] clause: it leaves the
    update method as it is, and the failure counter is not touched.
    None of the three named exceptions ever leaves the update method. *)
Theorem update_errors_absorbed_except_auth (s : Sys) (step : Step) (e : Exn) :
  first_failure s = Some (step, e) ->
  ((exists cause, e = FloRequestError cause /\ step <> AtConsumption) \/
   e = TimeoutError \/ e = JSONDecodeError ->
   fst (cycle s) =
     (if failures s + 1 >? 3 then Raises (UpdateFailed e) else Returns tt) /\
   failures (snd (cycle s)) = failures s + 1 /\
   (failures s + 1 <= 3 -> fst (cycle s) = Returns tt)) /\
  (forall cause, e = FloRequestError cause -> step = AtConsumption ->
   fst (cycle s) = Returns tt /\
   failures (snd (cycle s)) = 0 /\
   _water_usage (fst (snd (cycle s))) = JObj []) /\
  (forall cause, e = FloAuthError cause ->
   fst (cycle s) = Raises (FloAuthError cause) /\
   failures (snd (cycle s)) = failures s) /\
  (forall e', fst (cycle s) = Raises e' ->
   (forall cause, e' <> FloRequestError cause) /\
   e' <> TimeoutError /\ e' <> JSONDecodeError).
Proof.
  intros Hf. split; [|split; [|split]].
  - intros He.
    destruct (counted_failure_cycle s step e Hf He) as (s1 & _ & Hc).
    rewrite Hc. cbn [fst snd]. split; [reflexivity|].
    split; [reflexivity|]. intros Hle.
    destruct (Z.gtb_spec (failures s + 1) 3); [lia | reflexivity].
  - intros cause -> ->. pose proof (first_failure_body s) as Hb.
    rewrite Hf in Hb. destruct Hb as (c & a & Hb).
    rewrite cycle_unfold, Hb. repeat split.
  - intros cause ->. pose proof (first_failure_body s) as Hb.
    rewrite Hf in Hb.
    assert (H : exists s1, update_cycle_body s = (Raises (FloAuthError cause), s1)).
    { destruct step; exact Hb. }
    destruct H as [s1 Hr]. rewrite cycle_unfold, Hr. cbn [soft_failure fst snd].
    split; [reflexivity|]. exact (update_cycle_body_raises_count s _ s1 Hr).
  - intros e' H. apply cycle_never_raises_soft in H.
    split; [|split]; [intros cause| |]; intros ->; discriminate.
Qed.

Lemma update_errors_absorbed_except_auth_witness :
  let quiet := (polled_device,
                (signed_in, fresh_world (seconds 60) (always NetClientError))) in
  let expiring := (polled_device,
                   (signed_in, fresh_world (seconds 3596) (always NetClientError))) in
  let troubled :=
    (set_failure_count 7 polled_device,
     (signed_in,
      fresh_world (seconds 60)
        (replies [mkReply 100000 (NetJson (JObj []));
                  mkReply 100000 (NetJson device_document);
                  mkReply 100000 NetClientError]))) in
  (fst (cycle quiet) = Returns tt /\ failures (snd (cycle quiet)) = 1) /\
  fst (cycle expiring) = Raises (FloAuthError ClientError) /\
  (failures troubled = 7 /\
   fst (cycle troubled) = Returns tt /\ failures (snd (cycle troubled)) = 0).
Proof.
  cbv zeta.
  pose proof (update_errors_absorbed_except_auth
                (polled_device,
                 (signed_in, fresh_world (seconds 60) (always NetClientError)))
                AtPing (FloRequestError ClientError) eq_refl) as [Hq _].
  pose proof (update_errors_absorbed_except_auth
                (polled_device,
                 (signed_in, fresh_world (seconds 3596) (always NetClientError)))
                AtPing (FloAuthError ClientError) eq_refl) as [_ [_ [Ha _]]].
  pose proof (update_errors_absorbed_except_auth
                (set_failure_count 7 polled_device,
                 (signed_in,
                  fresh_world (seconds 60)
                    (replies [mkReply 100000 (NetJson (JObj []));
                              mkReply 100000 (NetJson device_document);
                              mkReply 100000 NetClientError])))
                AtConsumption (FloRequestError ClientError) eq_refl)
    as [_ [Ht _]].
  destruct Hq as (Eq & Hc & _).
  { left. exists ClientError. split; [reflexivity | discriminate]. }
  destruct (Ha ClientError eq_refl) as [Ea _].
  destruct (Ht ClientError eq_refl eq_refl) as (Et & Hz & _).
  split; [split; [rewrite Eq; reflexivity | exact Hc]|].
  split; [exact Ea|].
  split; [reflexivity|]. split; [exact Et | exact Hz].
Defined.

(* ===================================================================== *)
(** ** Projections                                                       *)
(* ===================================================================== *)

(** A fetched consumption document with an aggregations field but no
    consumption sum in it: [consumption_today] is [None], not a number. *)
Lemma consumption_today_without_sum_is_none :
  let c := set_water_usage consumption_without_sum polled_device in
  truthy (_water_usage c) = true /\
  subscript (_water_usage c) "aggregations"
    = Returns (JObj [("sumTotalDurationSeconds", JInt 0)]) /\
  lookup "sumTotalGallonsConsumed" [("sumTotalDurationSeconds", JInt 0)] = None /\
  consumption_today c = Returns JNull /\
  is_number JNull = false.
Proof. cbv zeta. repeat split. Qed.

(** C9, as the code has it.  [consumption_today] is [None] when the
    cached consumption document is empty (as it is before any fetch),
    when it has no aggregations field, when that field is empty or
    otherwise false, and when the aggregations carry no
    [sumTotalGallonsConsumed]; when they carry one, it is that value. *)
Theorem consumption_today_value (c : Coordinator) :
  (truthy (_water_usage c) = false -> consumption_today c = Returns JNull) /\
  (forall fields,
     _water_usage c = JObj fields ->
     (lookup "aggregations" fields = None ->
      consumption_today c = Returns JNull) /\
     (forall a, lookup "aggregations" fields = Some a -> truthy a = false ->
                consumption_today c = Returns JNull) /\
     (forall aggs,
        lookup "aggregations" fields = Some (JObj aggs) -> aggs <> [] ->
        (lookup "sumTotalGallonsConsumed" aggs = None ->
         consumption_today c = Returns JNull) /\
        (forall v, lookup "sumTotalGallonsConsumed" aggs = Some v ->
                   consumption_today c = Returns v))).
Proof.
  unfold consumption_today. split.
  - intros H. rewrite H. reflexivity.
  - intros fields Hf. rewrite Hf.
    destruct fields as [|f fields']; [repeat split; intros; discriminate|].
    set (fs := f :: fields'). cbn [truthy negb rbind dict_get].
    split; [|split].
    + intros H. fold fs. rewrite H. reflexivity.
    + intros a H Ha. fold fs. rewrite H. cbn [rbind]. rewrite Ha. reflexivity.
    + intros aggs H Hne. fold fs. rewrite H. cbn [rbind].
      destruct aggs as [|g aggs']; [congruence|].
      cbn [truthy negb dict_get]. split.
      * intros ->. reflexivity.
      * intros v ->. reflexivity.
Qed.

Lemma consumption_today_value_witness :
  consumption_today (Coordinator_init "loc-1" "dev-1") = Returns JNull /\
  consumption_today polled_device = Returns (JFloat twelve_and_a_half) /\
  consumption_today (set_water_usage consumption_without_sum polled_device)
    = Returns JNull.
Proof.
  split; [|split].
  - apply (proj1 (consumption_today_value _)). reflexivity.
  - refine (proj2 (proj2 (proj2 (proj2 (consumption_today_value polled_device)
              _ eq_refl)) _ eq_refl _) _ eq_refl).
    discriminate.
  - refine (proj1 (proj2 (proj2 (proj2 (consumption_today_value
              (set_water_usage consumption_without_sum polled_device))
              _ eq_refl)) _ eq_refl _) eq_refl).
    discriminate.
Defined.

(** C10.  On a device document without a "deviceModel" field,
    [device_name] raises [KeyError], with or without a "nickname" field:
    the fallback string is built, and [model] read, before [get] is
    called.  With a "nickname" field present it returns the nickname
    exactly when "deviceModel" is present too. *)
Theorem device_name_needs_model
        (str_other : json -> string) (c : Coordinator)
        (fields : list (string * json)) :
  _device_information c = JObj fields ->
  (lookup "deviceModel" fields = None ->
   device_name str_other c = Raises (KeyError "deviceModel")) /\
  (forall nick,
     lookup "nickname" fields = Some nick ->
     (device_name str_other c = Returns nick <->
      exists m, lookup "deviceModel" fields = Some m)) /\
  (forall m,
     lookup "deviceModel" fields = Some m ->
     lookup "nickname" fields = None ->
     device_name str_other c =
     Returns (JStr (manufacturer c ++ " " ++ format str_other m))).
Proof.
  intros Hd. unfold device_name, model. rewrite Hd.
  cbn [getattr_get rbind subscript dict_get].
  split; [|split].
  - intros ->. reflexivity.
  - intros nick Hn. destruct (lookup "deviceModel" fields) as [m|].
    + cbn [rbind]. rewrite Hn. split; eauto.
    + cbn [rbind]. split; [discriminate | intros [m Hm]; discriminate].
  - intros m -> Hn. cbn [rbind]. rewrite Hn. reflexivity.
Qed.

Lemma device_name_needs_model_witness :
  device_name (fun _ => EmptyString)
              (set_device_information (JObj [("nickname", JStr "Main valve")])
                                      polled_device)
    = Raises (KeyError "deviceModel") /\
  device_name (fun _ => EmptyString) polled_device = Returns (JStr "Main valve").
Proof.
  split.
  - refine (proj1 (device_name_needs_model _
              (set_device_information (JObj [("nickname", JStr "Main valve")])
                                      polled_device) _ eq_refl) eq_refl).
  - refine (proj2 (proj1 (proj2 (device_name_needs_model _ polled_device _ eq_refl))
                     _ eq_refl) _).
    eexists. reflexivity.
Defined.

(* ===================================================================== *)
(** ** Token and expiration                                              *)
(* ===================================================================== *)

Lemma is_returns_inv {A} (r : result A) :
  is_returns r = true -> exists a, r = Returns a.
Proof. destruct r; [eauto | discriminate]. Qed.

Lemma has_expiry_inv t body :
  has_expiry t body = true ->
  exists e d, subscript body "expires_in" = Returns e /\
              timedelta_seconds e = Returns d /\
              datetime_ok (t + d) = true.
Proof.
  unfold has_expiry. destruct (subscript body "expires_in") as [e|]; [|discriminate].
  destruct (timedelta_seconds e) as [d|] eqn:Ed; [|discriminate].
  intros H. exists e, d. auto.
Qed.

(** [authenticate] on a response that has all four fields. *)
Lemma authenticate_complete c w body a r u e d :
  outcome (script w (cursor w)) = NetJson body ->
  subscript body "access_token" = Returns a ->
  subscript body "refresh_token" = Returns r ->
  subscript body "user_id" = Returns u ->
  subscript body "expires_in" = Returns e ->
  timedelta_seconds e = Returns d ->
  datetime_ok (now w + elapsed (script w (cursor w)) + d) = true ->
  authenticate (c, w) =
  (Returns tt,
   (mkFloAPI (_username c) (_password c) a r
             (Some (now w + elapsed (script w (cursor w)) + d)) u,
    snd (http (token_post (password_grant (_username c) (_password c))) w))).
Proof.
  intros Ho Ha Hr Hu He Hd Hok.
  unfold authenticate. unfold_py. cbn [fst snd]. unfold http, datetime_add.
  rewrite Ho. cbn [result_of_outcome fst snd now].
  rewrite Ha, Hr, Hu, He, Hd, Hok. reflexivity.
Qed.

(** [authenticate] on anything that offers no access token. *)
Lemma authenticate_keeps_client c w :
  offered_token (outcome (script w (cursor w))) = None ->
  fst (snd (authenticate (c, w))) = c.
Proof.
  unfold offered_token, authenticate. unfold_py. cbn [fst snd]. unfold http.
  destruct (outcome (script w (cursor w))) as [body| | |];
    cbn [result_of_outcome fst snd]; try reflexivity.
  destruct (subscript_cases body "access_token") as [[a E]|[E|E]]; rewrite E;
    [discriminate | reflexivity | reflexivity].
Qed.

(** [refresh_access_token] on a response that has the access token and
    a usable "expires_in". *)
Lemma refresh_complete c w body a e d :
  truthy (_refresh_token c) = true ->
  outcome (script w (cursor w)) = NetJson body ->
  subscript body "access_token" = Returns a ->
  subscript body "expires_in" = Returns e ->
  timedelta_seconds e = Returns d ->
  datetime_ok (now w + elapsed (script w (cursor w)) + d) = true ->
  exists r,
    fst (snd (refresh_access_token (c, w))) =
    mkFloAPI (_username c) (_password c) a r
             (Some (now w + elapsed (script w (cursor w)) + d)) (_user_id c).
Proof.
  intros Hr Ho Ha He Hd Hok. unfold refresh_access_token.
  unfold bind at 1. unfold self at 1. cbn [fst snd]. rewrite Hr. cbn [negb].
  unfold_py. cbn [fst snd]. unfold http, datetime_add. rewrite Ho.
  cbn [result_of_outcome fst snd now]. rewrite Ha.
  destruct body; try discriminate. cbn [py_in].
  destruct (lookup "refresh_token" fields) as [r|] eqn:El.
  - cbn [subscript] in *. rewrite El. cbn [fst snd now]. rewrite He, Hd, Hok.
    cbn [fst snd]. eexists. reflexivity.
  - cbn [fst snd now]. rewrite He, Hd, Hok. cbn [fst snd]. eexists. reflexivity.
Qed.

(** [refresh_access_token] on anything that offers no access token and
    is not a transport failure. *)
Lemma refresh_keeps_client c w :
  truthy (_refresh_token c) = true ->
  outcome (script w (cursor w)) <> NetClientError ->
  offered_token (outcome (script w (cursor w))) = None ->
  fst (snd (refresh_access_token (c, w))) = c.
Proof.
  intros Hr Hn. unfold offered_token, refresh_access_token.
  unfold bind at 1. unfold self at 1. cbn [fst snd]. rewrite Hr. cbn [negb].
  unfold_py. cbn [fst snd]. unfold http.
  destruct (outcome (script w (cursor w))) as [body| | |];
    cbn [result_of_outcome fst snd]; try reflexivity; [|congruence].
  destruct (subscript_cases body "access_token") as [[a E]|[E|E]]; rewrite E;
    [discriminate | reflexivity | reflexivity].
Qed.

Lemma token_from_weaken new xs c :
  token_from xs c -> token_from (new ++ xs)%list c.
Proof.
  intros H Hn. destruct (H Hn) as [He [x [Hin Hs]]].
  split; [exact He|]. exists x. split; [|exact Hs].
  apply in_or_app. now right.
Qed.

Lemma offered_token_inv o a :
  offered_token o = Some a ->
  exists body, o = NetJson body /\ subscript body "access_token" = Returns a.
Proof.
  unfold offered_token. destruct o as [body| | |]; try discriminate.
  destruct (subscript body "access_token") eqn:E; [|discriminate].
  intros H. inversion H. subst. eauto.
Qed.

Lemma authenticate_preserves : preserves (fun s => snd (authenticate s)).
Proof.
  intros [c w]. cbn [fst snd].
  eexists. split; [rewrite authenticate_world; apply http_issued|].
  intros xs0 Hinv Hc. cbn [forallb] in Hc. rewrite andb_true_r in Hc.
  destruct (offered_token (outcome (script w (cursor w)))) as [a|] eqn:Eo.
  - apply offered_token_inv in Eo. destruct Eo as (body & Ho & Ha).
    unfold complete_token_reply in Hc.
    cbn [reply_of request_of token_post http_bearer] in Hc.
    rewrite Ho, Ha in Hc. cbn [is_returns] in Hc.
    change (is_password_grant _) with true in Hc.
    apply andb_prop in Hc. destruct Hc as [Hx Hc].
    apply andb_prop in Hc. destruct Hc as [Hr Hu].
    cbn [at_time] in Hx.
    apply has_expiry_inv in Hx. destruct Hx as (e & d & He & Hd & Hok).
    apply is_returns_inv in Hr. destruct Hr as [r Hr].
    apply is_returns_inv in Hu. destruct Hu as [u Hu].
    rewrite (authenticate_complete c w body a r u e d Ho Ha Hr Hu He Hd Hok).
    cbn [fst snd]. intros _. split; [discriminate|].
    eexists. split; [left; reflexivity|].
    split; [split; reflexivity|].
    exists body, e, d. cbn [reply_of at_time _access_token _token_expiration].
    repeat split; auto.
  - rewrite (authenticate_keeps_client c w Eo).
    apply (token_from_weaken [_]). exact Hinv.
Qed.

Lemma refresh_preserves : preserves (fun s => snd (refresh_access_token s)).
Proof.
  intros [c w]. cbn [fst snd].
  destruct (truthy (_refresh_token c)) eqn:Hr.
  2:{ rewrite (refresh_no_refresh_token c w Hr).
      apply (authenticate_preserves (c, w)). }
  set (x1 := mkExchange (token_post (refresh_grant (_refresh_token c)))
                        (now w + elapsed (script w (cursor w)))
                        (outcome (script w (cursor w)))).
  destruct (outcome (script w (cursor w))) as [body| | |] eqn:Ho.
  2:{ rewrite (refresh_transport_failure c w Hr Ho).
      destruct (authenticate_preserves
                  (c, snd (http (token_post (refresh_grant (_refresh_token c))) w)))
        as (new & Hi & Hp).
      cbn [fst snd] in Hi, Hp.
      exists (new ++ [x1])%list. split.
      - eapply issued_trans; [|exact Hi].
        unfold issued, http, x1. cbn [snd history]. rewrite Ho. reflexivity.
      - intros xs0 Hinv Hc. rewrite forallb_app in Hc. apply andb_prop in Hc.
        rewrite <- app_assoc. apply Hp; [|apply Hc].
        apply (token_from_weaken [x1]). exact Hinv. }
  all: exists [x1]; split;
    [unfold issued; rewrite (refresh_world c w Hr); cbv zeta; rewrite Ho;
     unfold http, x1; cbn [snd history]; rewrite Ho; reflexivity|];
    intros xs0 Hinv Hc.
  - cbn [forallb] in Hc. rewrite andb_true_r in Hc.
    destruct (subscript body "access_token") as [a|e0] eqn:Ha.
    + unfold complete_token_reply, x1 in Hc.
      cbn [reply_of request_of token_post http_bearer] in Hc.
      rewrite Ha in Hc. cbn [is_returns] in Hc.
      change (is_password_grant _) with false in Hc.
      rewrite andb_true_r in Hc.
      cbn [at_time] in Hc.
      apply has_expiry_inv in Hc. destruct Hc as (e & d & He & Hd & Hok).
      destruct (refresh_complete c w body a e d Hr Ho Ha He Hd Hok) as [r E].
      rewrite E. intros _. split; [discriminate|].
      exists x1. split; [left; reflexivity|].
      split; [split; reflexivity|].
      exists body, e, d. unfold x1.
      cbn [reply_of at_time _access_token _token_expiration].
      repeat split; auto.
    + rewrite refresh_keeps_client; auto.
      * apply (token_from_weaken [x1]). exact Hinv.
      * rewrite Ho. discriminate.
      * rewrite Ho. unfold offered_token. rewrite Ha. reflexivity.
  - rewrite refresh_keeps_client; auto.
    + apply (token_from_weaken [x1]). exact Hinv.
    + rewrite Ho. discriminate.
    + rewrite Ho. reflexivity.
  - rewrite refresh_keeps_client; auto.
    + apply (token_from_weaken [x1]). exact Hinv.
    + rewrite Ho. discriminate.
    + rewrite Ho. reflexivity.
Qed.

Lemma ensure_preserves : preserves (fun s => snd (_ensure_token_valid s)).
Proof.
  intros [c w].
  destruct (token_state_cases c (now w)) as [H | [H | [H | H]]].
  - rewrite (ensure_no_token c w H).
    apply (authenticate_preserves (c, w)).
  - rewrite (ensure_near_expiry c w H).
    apply (refresh_preserves (c, w)).
  - rewrite (ensure_far_from_expiry c w H). exists []. split.
    + apply issued_refl.
    + intros xs0 Hinv _. exact Hinv.
  - rewrite (ensure_expiration_too_early c w H). exists []. split.
    + apply issued_refl.
    + intros xs0 Hinv _. exact Hinv.
Qed.

Lemma request_preserves method path kwargs :
  preserves (fun s => snd (request method path kwargs s)).
Proof.
  intros s. cbv beta. rewrite request_unfold.
  destruct (ensure_preserves s) as (new & Hi & Hp). cbv beta in Hi, Hp.
  destruct (_ensure_token_valid s) as [[u|e] s1]; cbn [fst snd] in *.
  - eexists (_ :: new). split.
    + unfold issued, http. cbn [snd history]. rewrite Hi. reflexivity.
    + intros xs0 Hinv Hc. cbn [forallb] in Hc. apply andb_prop in Hc.
      unfold http. cbn [fst snd].
      apply (token_from_weaken [_] (new ++ xs0)). apply Hp; [exact Hinv|apply Hc].
  - exists new. split; assumption.
Qed.

Lemma run_op_preserves o : preserves (run_op o).
Proof.
  destruct o; cbn [run_op].
  - apply authenticate_preserves.
  - apply refresh_preserves.
  - apply request_preserves.
  - intros s. exists []. split; [reflexivity|].
    intros xs0 Hinv _. exact Hinv.
Qed.

Lemma run_ops_preserves ops : preserves (run_ops ops).
Proof.
  induction ops as [|o ops IH]; intros s.
  - exists []. split; [reflexivity|]. intros xs0 Hinv _. exact Hinv.
  - cbn [run_ops fold_left]. fold (run_ops ops (run_op o s)).
    destruct (run_op_preserves o s) as (new1 & Hi1 & Hp1).
    destruct (IH (run_op o s)) as (new2 & Hi2 & Hp2).
    exists (new2 ++ new1)%list. split.
    + eapply issued_trans; eassumption.
    + intros xs0 Hinv Hc. rewrite forallb_app in Hc. apply andb_prop in Hc.
      rewrite <- app_assoc. apply Hp2; [|apply Hc]. apply Hp1; [exact Hinv|apply Hc].
Qed.

(** A first [authenticate] answered by a response that has the access
    token and no other field: [authenticate] raises [FloAuthError], and
    the client is left with an access token and no expiration. *)
Lemma access_token_without_expiration :
  let s := run_ops [OpAuthenticate]
             (FloAPI_init "user@example.com" "secret",
              fresh_world 0 (replies [mkReply 250000 (NetJson truncated_token_body)])) in
  _access_token (fst s) = JStr "tok-1" /\
  _token_expiration (fst s) = None /\
  ~ token_from (history (snd s)) (fst s).
Proof.
  cbv zeta. split; [reflexivity|]. split; [reflexivity|].
  intros H. destruct H as [He _]; [discriminate|]. apply He. reflexivity.
Qed.

(** C4, as the code has it.  Start from a new client and run any
    sequence of [authenticate], [refresh_access_token] and [request]
    calls, some of which may end in an error, with any waits between
    them.  If every token response received on the way that offers an
    access token also has the other fields the code reads from it
    ("refresh_token" and "user_id" for the password grant, and an
    "expires_in" that [timedelta] accepts as seconds and that, added to
    the time of the reply, stays within the range of [datetime]), then a
    client holding a non-null access token holds an expiration too, and
    both were stored from one and the same token response received
    during the run. *)
Theorem token_has_expiration_from_same_exchange
        (username password : string) (w : World) (ops : list Op)
        (xs : list Exchange) :
  let s := run_ops ops (FloAPI_init username password, w) in
  issued w (snd s) xs ->
  forallb complete_token_reply xs = true ->
  _access_token (fst s) <> JNull ->
  _token_expiration (fst s) <> None /\
  exists x, In x xs /\ stored_by x (fst s).
Proof.
  cbv zeta. intros Hi Hc.
  destruct (run_ops_preserves ops (FloAPI_init username password, w))
    as (new & Hi' & Hp).
  cbn [fst snd] in Hi'. unfold issued in Hi, Hi'. rewrite Hi in Hi'.
  apply app_inv_tail in Hi'. subst new.
  specialize (Hp [] (fun H => False_ind _ (H eq_refl)) Hc).
  rewrite app_nil_r in Hp. exact Hp.
Qed.

Lemma token_has_expiration_from_same_exchange_witness :
  let s := run_ops sample_run
             (FloAPI_init "user@example.com" "secret",
              fresh_world 0 sample_script) in
  _access_token (fst s) = JStr "tok-2" /\
  List.length (history (snd s)) = 5%nat /\
  _token_expiration (fst s) <> None /\
  exists x, In x (history (snd s)) /\ stored_by x (fst s).
Proof.
  cbv zeta. split; [reflexivity|]. split; [reflexivity|].
  apply (token_has_expiration_from_same_exchange
           "user@example.com" "secret" (fresh_world 0 sample_script) sample_run).
  - vm_compute. reflexivity.
  - vm_compute. reflexivity.
  - vm_compute. discriminate.
Defined.

(* ===================================================================== *)
(** ** More about the API client                                         *)
(* ===================================================================== *)

Lemma authenticate_raises_token_error s e s' :
  authenticate s = (Raises e, s') -> token_exchange_error e.
Proof.
  destruct s as [c w]. unfold authenticate. unfold_py. cbn [fst snd].
  unfold http.
  destruct (outcome (script w (cursor w))) as [body| | |] eqn:Eo;
    cbn [result_of_outcome fst snd].
  2-4: intros Hs; inversion Hs; constructor.
  repeat case_step; intros Hs; inversion Hs; constructor.
Qed.

Lemma timedelta_ok_bounds us :
  timedelta_ok us = true <->
  -86399999913600000000 <= us < 86400000000000000000.
Proof.
  unfold timedelta_ok. rewrite andb_true_iff, Z.leb_le, Z.ltb_lt.
  change (-999999999 * day) with (-86399999913600000000).
  change (1000000000 * day) with 86400000000000000000. tauto.
Qed.

Lemma datetime_ok_bounds t :
  datetime_ok t = true <-> 0 <= t < 315537897600000000.
Proof.
  unfold datetime_ok. rewrite andb_true_iff, Z.leb_le, Z.ltb_lt.
  change datetime_min with 0. change datetime_end with 315537897600000000.
  tauto.
Qed.

(** X1.  [authenticate] returns normally exactly when the reply to its
    POST is a JSON object that has "access_token", "refresh_token",
    "user_id" and "expires_in", the last one a value [timedelta] accepts
    as seconds and that, added to the time the reply arrived, stays
    within the range of [datetime]; the client then holds these four
    values, whatever token state it held before.  For an integer
    "expires_in" = n this means -86399999913600 <= n <= 86399999999999
    and an expiration before the year 10000. *)
Theorem authenticate_returns_iff (c : FloAPI) (w : World) (s' : ApiState) :
  let t := now w + elapsed (script w (cursor w)) in
  (authenticate (c, w) = (Returns tt, s') <->
   exists body a r u e d,
     outcome (script w (cursor w)) = NetJson body /\
     subscript body "access_token" = Returns a /\
     subscript body "refresh_token" = Returns r /\
     subscript body "user_id" = Returns u /\
     subscript body "expires_in" = Returns e /\
     timedelta_seconds e = Returns d /\
     datetime_ok (t + d) = true /\
     s' = (mkFloAPI (_username c) (_password c) a r (Some (t + d)) u,
           snd (http (token_post (password_grant (_username c) (_password c))) w))) /\
  (forall n d,
     timedelta_seconds (JInt n) = Returns d <->
     d = n * 1000000 /\ -86399999913600 <= n <= 86399999999999) /\
  (forall x, datetime_ok x = true <-> 0 <= x < 315537897600000000).
Proof.
  cbv zeta. split; [|split].
  - split.
    + apply authenticate_returns.
    + intros (body & a & r & u & e & d & Ho & Ha & Hr & Hu & He & Hd & Hok & ->).
      apply (authenticate_complete c w body a r u e d); assumption.
  - intros n d. cbn [timedelta_seconds]. unfold timedelta_of_microseconds.
    destruct (timedelta_ok (seconds n)) eqn:E.
    + apply timedelta_ok_bounds in E. unfold seconds in *. split.
      * intros H. inversion H. lia.
      * intros [-> _]. reflexivity.
    + split; [discriminate|]. intros [_ H].
      assert (timedelta_ok (seconds n) = true)
        by (apply timedelta_ok_bounds; unfold seconds; lia).
      congruence.
  - apply datetime_ok_bounds.
Qed.

(** X2.  How [authenticate] fails, case by case.  A transport failure
    is a [FloAuthError] and a timeout or an undecodable body the
    exception itself, each with the client untouched.  A body that is not
    an object is a bare [TypeError].  On an object the four fields are
    read and stored in turn, and the first missing one is a
    [FloAuthError] that leaves the earlier ones stored.  With all four
    present, an "expires_in" that [timedelta] refuses, or that leads past
    the range of [datetime], is a bare [TypeError], [ValueError] or
    [OverflowError] with token, refresh token and user id stored and the
    expiration as it was.  [authenticate] never raises [ClientError] or
    [FloRequestError]. *)
Theorem authenticate_exceptions (c : FloAPI) (w : World) :
  let t := now w + elapsed (script w (cursor w)) in
  let w' := snd (http (token_post (password_grant (_username c) (_password c))) w) in
  let fails e c' := authenticate (c, w) = (Raises e, (c', w')) in
  (outcome (script w (cursor w)) = NetClientError ->
   fails (FloAuthError ClientError) c) /\
  (outcome (script w (cursor w)) = NetTimeout -> fails TimeoutError c) /\
  (outcome (script w (cursor w)) = NetBadJson -> fails JSONDecodeError c) /\
  (forall body,
     outcome (script w (cursor w)) = NetJson body ->
     (forall fields, body <> JObj fields) -> fails TypeError c) /\
  (forall fields,
     outcome (script w (cursor w)) = NetJson (JObj fields) ->
     match lookup "access_token" fields with
     | None => fails (FloAuthError (KeyError "access_token")) c
     | Some a =>
         let c1 := set_access_token a c in
         match lookup "refresh_token" fields with
         | None => fails (FloAuthError (KeyError "refresh_token")) c1
         | Some r =>
             let c2 := set_refresh_token r c1 in
             match lookup "user_id" fields with
             | None => fails (FloAuthError (KeyError "user_id")) c2
             | Some u =>
                 let c3 := set_user_id u c2 in
                 match lookup "expires_in" fields with
                 | None => fails (FloAuthError (KeyError "expires_in")) c3
                 | Some e =>
                     match timedelta_seconds e with
                     | Raises err => fails err c3
                     | Returns d =>
                         datetime_ok (t + d) = false -> fails OverflowError c3
                     end
                 end
             end
         end
     end) /\
  (forall e s', authenticate (c, w) = (Raises e, s') ->
                e <> ClientError /\ forall cause, e <> FloRequestError cause).
Proof.
  cbv zeta.
  assert (U : forall o, outcome (script w (cursor w)) = o ->
              authenticate (c, w) =
              try_except
                (fun s => match result_of_outcome o with
                          | Returns auth_response =>
                              (access_token <- py (subscript auth_response "access_token") ;;
                               assign (set_access_token access_token) ;;
                               refresh_token <- py (subscript auth_response "refresh_token") ;;
                               assign (set_refresh_token refresh_token) ;;
                               user_id <- py (subscript auth_response "user_id") ;;
                               assign (set_user_id user_id) ;;
                               expires_in <- py (subscript auth_response "expires_in") ;;
                               t <- datetime_now ;;
                               delta <- py (timedelta_seconds expires_in) ;;
                               expiration <- py (datetime_add t delta) ;;
                               assign (set_token_expiration (Some expiration)))
                                (fst s, snd (http (token_post (password_grant (_username c) (_password c))) w))
                          | Raises e =>
                              (Raises e,
                               (fst s, snd (http (token_post (password_grant (_username c) (_password c))) w)))
                          end)
                (fun err =>
                   match err with
                   | ClientError => raise (FloAuthError err)
                   | KeyError _ => raise (FloAuthError err)
                   | _ => raise err
                   end) (c, w)).
  { intros o Ho. unfold authenticate, try_except. unfold bind at 1 2 3.
    unfold self at 1 2. unfold session at 1. cbn [fst snd]. unfold http.
    rewrite Ho. destruct (result_of_outcome o); reflexivity. }
  split; [|split; [|split; [|split; [|split]]]].
  - intros Ho. rewrite (U _ Ho). reflexivity.
  - intros Ho. rewrite (U _ Ho). reflexivity.
  - intros Ho. rewrite (U _ Ho). reflexivity.
  - intros body Ho Hn. rewrite (U _ Ho).
    destruct body; try reflexivity. exfalso. eapply Hn. reflexivity.
  - intros fields Ho. rewrite (U _ Ho). unfold try_except. unfold_py.
    cbn [result_of_outcome fst snd subscript].
    destruct (lookup "access_token" fields); [|reflexivity].
    destruct (lookup "refresh_token" fields); [|reflexivity].
    destruct (lookup "user_id" fields); [|reflexivity].
    destruct (lookup "expires_in" fields) as [e|]; [|reflexivity].
    cbn [fst snd].
    destruct (timedelta_seconds_cases e) as [[d E]|[E|[E|E]]]; rewrite E;
      try reflexivity.
    intros Hok. unfold datetime_add, http. cbn [snd now]. rewrite Hok.
    reflexivity.
  - intros e s' H. apply authenticate_raises_token_error in H.
    destruct H; split; intros; discriminate.
Qed.

Lemma authenticate_exceptions_witness :
  exists w',
    authenticate (FloAPI_init "user@example.com" "secret",
                  fresh_world 0
                    (replies [mkReply 250000
                                (NetJson (JObj [("access_token", JStr "tok-1");
                                                ("refresh_token", JStr "ref-1");
                                                ("user_id", JStr "user-1");
                                                ("expires_in", JInt 1000000000000)]))]))
    = (Raises OverflowError,
       (mkFloAPI "user@example.com" "secret" (JStr "tok-1") (JStr "ref-1")
                 None (JStr "user-1"),
        w')).
Proof.
  eexists.
  exact (proj1 (proj2 (proj2 (proj2 (proj2 (authenticate_exceptions
           (FloAPI_init "user@example.com" "secret")
           (fresh_world 0
              (replies [mkReply 250000
                          (NetJson (JObj [("access_token", JStr "tok-1");
                                          ("refresh_token", JStr "ref-1");
                                          ("user_id", JStr "user-1");
                                          ("expires_in", JInt 1000000000000)]))])))))))
           _ eq_refl eq_refl).
Defined.

(** X3.  When the reply offers no access token (transport failure,
    timeout, undecodable body, a body that is not an object or has no
    "access_token"), [authenticate] raises and the client is exactly as
    before: a failed sign-in does not wipe a token that is held. *)
Theorem authenticate_failure_keeps_tokens (c : FloAPI) (w : World) :
  offered_token (outcome (script w (cursor w))) = None ->
  exists e,
    authenticate (c, w) =
    (Raises e,
     (c, snd (http (token_post (password_grant (_username c) (_password c))) w))).
Proof.
  intros H.
  destruct (authenticate (c, w)) as [[[]|e] [c' w']] eqn:E.
  - apply authenticate_returns in E.
    destruct E as (body & a & r & u & e & d & Ho & Ha & _).
    rewrite Ho in H. cbn [offered_token] in H. rewrite Ha in H. discriminate.
  - pose proof (authenticate_keeps_client c w H) as K.
    pose proof (authenticate_world c w) as W.
    rewrite E in K, W. cbn [fst snd] in K, W. subst c' w'.
    exists e. reflexivity.
Qed.

Lemma authenticate_failure_keeps_tokens_witness :
  exists e w',
    authenticate (signed_in, fresh_world (seconds 60) (always NetTimeout))
    = (Raises e, (signed_in, w')).
Proof.
  destruct (authenticate_failure_keeps_tokens
              signed_in (fresh_world (seconds 60) (always NetTimeout)) eq_refl)
    as [e E].
  exists e. eexists. exact E.
Defined.

Lemma refresh_raises_token_error s e s' :
  refresh_access_token s = (Raises e, s') -> token_exchange_error e.
Proof.
  destruct s as [c w].
  destruct (truthy (_refresh_token c)) eqn:Hr.
  2:{ rewrite (refresh_no_refresh_token c w Hr).
      apply authenticate_raises_token_error. }
  destruct (outcome (script w (cursor w))) as [body| | |] eqn:Ho.
  2:{ rewrite (refresh_transport_failure c w Hr Ho).
      apply authenticate_raises_token_error. }
  all: unfold refresh_access_token;
    unfold bind at 1; unfold self at 1; cbn [fst snd]; rewrite Hr; cbn [negb];
    unfold_py; cbn [fst snd]; unfold http; rewrite Ho;
    cbn [result_of_outcome fst snd].
  2-3: intros Hs; inversion Hs; constructor.
  repeat case_step; intros Hs; inversion Hs; subst; constructor.
Qed.

Lemma ensure_raises_token_error s e s' :
  _ensure_token_valid s = (Raises e, s') -> token_exchange_error e.
Proof.
  destruct s as [c w].
  destruct (token_state_cases c (now w)) as [H | [H | [H | H]]].
  - rewrite (ensure_no_token c w H). apply authenticate_raises_token_error.
  - rewrite (ensure_near_expiry c w H). apply refresh_raises_token_error.
  - rewrite (ensure_far_from_expiry c w H). discriminate.
  - rewrite (ensure_expiration_too_early c w H). intros E. inversion E.
    constructor.
Qed.

Lemma request_raises_cases method path kwargs s e s' :
  request method path kwargs s = (Raises e, s') ->
  token_exchange_error e \/ e = FloRequestError ClientError.
Proof.
  rewrite request_unfold.
  destruct (_ensure_token_valid s) as [[u|e0] s1] eqn:Eg.
  - unfold http. cbn [fst snd].
    destruct (outcome (script (snd s1) (cursor (snd s1))));
      cbn [result_of_outcome wrap_request_error]; intros H; inversion H;
      auto using token_exchange_error.
  - intros H. inversion H. subst. left.
    eapply ensure_raises_token_error. exact Eg.
Qed.

(** X4.  A refresh answered with an access token and an "expires_in"
    that [timedelta] accepts replaces the access token, replaces the
    refresh token only when the reply carries one, and leaves the user id
    alone.  When the new expiration is within the range of [datetime] it
    is stored and the refresh returns normally; otherwise the refresh
    raises [OverflowError], with the new tokens stored beside the old
    expiration. *)
Theorem refresh_rotates_optionally
        (c : FloAPI) (w : World) (fields : list (string * json))
        (a e : json) (d : Z) :
  truthy (_refresh_token c) = true ->
  outcome (script w (cursor w)) = NetJson (JObj fields) ->
  lookup "access_token" fields = Some a ->
  lookup "expires_in" fields = Some e ->
  timedelta_seconds e = Returns d ->
  let t := now w + elapsed (script w (cursor w)) in
  let rotated := match lookup "refresh_token" fields with
                 | Some r => r
                 | None => _refresh_token c
                 end in
  let w' := snd (http (token_post (refresh_grant (_refresh_token c))) w) in
  refresh_access_token (c, w) =
  if datetime_ok (t + d) then
    (Returns tt,
     (mkFloAPI (_username c) (_password c) a rotated (Some (t + d)) (_user_id c),
      w'))
  else
    (Raises OverflowError,
     (mkFloAPI (_username c) (_password c) a rotated (_token_expiration c)
               (_user_id c),
      w')).
Proof.
  intros Hr Ho Ha He Hd. cbv zeta. unfold refresh_access_token.
  unfold bind at 1. unfold self at 1. cbn [fst snd]. rewrite Hr. cbn [negb].
  unfold_py. cbn [fst snd]. unfold http, datetime_add. rewrite Ho.
  cbn [result_of_outcome fst snd subscript py_in]. rewrite Ha.
  destruct (lookup "refresh_token" fields) as [r|];
    cbn [fst snd now]; rewrite He, Hd;
    destruct (datetime_ok (now w + elapsed (script w (cursor w)) + d));
    reflexivity.
Qed.

Lemma refresh_rotates_optionally_witness :
  let reply := JObj [("access_token", JStr "tok-2"); ("expires_in", JInt 7200)] in
  exists w',
    refresh_access_token
      (signed_in, fresh_world (seconds 3500) (replies [mkReply 200000 (NetJson reply)]))
    = (Returns tt,
       (mkFloAPI "user@example.com" "secret" (JStr "tok-2") (JStr "ref-1")
                 (Some (seconds 3500 + 200000 + seconds 7200)) (JStr "user-1"),
        w')).
Proof.
  cbv zeta. eexists.
  apply (refresh_rotates_optionally signed_in
           (fresh_world (seconds 3500)
              (replies [mkReply 200000
                          (NetJson (JObj [("access_token", JStr "tok-2");
                                          ("expires_in", JInt 7200)]))]))
           [("access_token", JStr "tok-2"); ("expires_in", JInt 7200)]
           (JStr "tok-2") (JInt 7200) (seconds 7200));
    reflexivity.
Defined.

(** X5.  A refresh reply that has the access token but no "expires_in"
    makes [refresh_access_token] raise a bare [KeyError] (not
    [FloAuthError], as [authenticate] would): by then the new access
    token, and the new refresh token if any, are stored, while the
    expiration is still the old one. *)
Theorem refresh_without_expiry_raises_key_error
        (c : FloAPI) (w : World) (fields : list (string * json)) (a : json) :
  truthy (_refresh_token c) = true ->
  outcome (script w (cursor w)) = NetJson (JObj fields) ->
  lookup "access_token" fields = Some a ->
  lookup "expires_in" fields = None ->
  refresh_access_token (c, w) =
  (Raises (KeyError "expires_in"),
   (mkFloAPI (_username c) (_password c) a
             (match lookup "refresh_token" fields with
              | Some r => r
              | None => _refresh_token c
              end)
             (_token_expiration c) (_user_id c),
    snd (http (token_post (refresh_grant (_refresh_token c))) w))).
Proof.
  intros Hr Ho Ha He. unfold refresh_access_token.
  unfold bind at 1. unfold self at 1. cbn [fst snd]. rewrite Hr. cbn [negb].
  unfold_py. cbn [fst snd]. unfold http. rewrite Ho.
  cbn [result_of_outcome fst snd subscript py_in]. rewrite Ha.
  destruct (lookup "refresh_token" fields) as [r|];
    cbn [fst snd]; rewrite He; reflexivity.
Qed.

Lemma refresh_without_expiry_raises_key_error_witness :
  exists w',
    refresh_access_token
      (signed_in,
       fresh_world (seconds 3500)
         (replies [mkReply 200000 (NetJson truncated_token_body)]))
    = (Raises (KeyError "expires_in"),
       (mkFloAPI "user@example.com" "secret" (JStr "tok-1") (JStr "ref-1")
                 (Some (seconds 3600)) (JStr "user-1"),
        w')).
Proof.
  eexists.
  apply (refresh_without_expiry_raises_key_error signed_in
           (fresh_world (seconds 3500)
              (replies [mkReply 200000 (NetJson truncated_token_body)]))
           [("access_token", JStr "tok-1")] (JStr "tok-1"));
    reflexivity.
Defined.

(** X6.  What [request] can raise: [FloRequestError] for a transport
    failure of its own call, [TimeoutError] and [JSONDecodeError] as they
    come, and whatever the token gate raised: [FloAuthError], a bare
    [KeyError] out of a refresh, a bare [TypeError] or [ValueError] for an
    unusable "expires_in", or [OverflowError] for an expiration out of
    range.  A bare [ClientError] never leaves [request], and a
    [FloRequestError] always wraps a transport failure of the request's
    own call. *)
Theorem request_exceptions
        (method path : string) (kwargs : Kwargs) (s s' : ApiState) (e : Exn) :
  request method path kwargs s = (Raises e, s') ->
  (token_exchange_error e \/ e = FloRequestError ClientError) /\
  e <> ClientError /\
  (forall cause, e = FloRequestError cause ->
     exists s1 u,
       _ensure_token_valid s = (Returns u, s1) /\
       outcome (script (snd s1) (cursor (snd s1))) = NetClientError).
Proof.
  intros H. pose proof (request_raises_cases _ _ _ _ _ _ H) as Hc.
  split; [exact Hc|]. split.
  - destruct Hc as [Ht | ->]; [inversion Ht|]; discriminate.
  - intros cause ->. rewrite request_unfold in H.
    destruct (_ensure_token_valid s) as [[u|e0] s1] eqn:Eg.
    + exists s1, u. split; [reflexivity|]. revert H. unfold http. cbn [fst snd].
      destruct (outcome (script (snd s1) (cursor (snd s1))));
        cbn [result_of_outcome wrap_request_error]; intros H;
        try discriminate; reflexivity.
    + inversion H. subst. apply ensure_raises_token_error in Eg. inversion Eg.
Qed.

Lemma request_exceptions_witness :
  fst (request "get" "/devices/dev-1" no_kwargs
               (signed_in, fresh_world (seconds 60) (always NetClientError)))
  = Raises (FloRequestError ClientError) /\
  FloRequestError ClientError <> ClientError.
Proof.
  split; [reflexivity|].
  apply (request_exceptions "get" "/devices/dev-1" no_kwargs
           (signed_in, fresh_world (seconds 60) (always NetClientError))
           (snd (request "get" "/devices/dev-1" no_kwargs
                         (signed_in, fresh_world (seconds 60) (always NetClientError))))
           (FloRequestError ClientError)).
  vm_compute. reflexivity.
Defined.

(* ===================================================================== *)
(** ** More about the update cycle                                       *)
(* ===================================================================== *)

Lemma update_cycle_body_raises_cases s e s1 :
  update_cycle_body s = (Raises e, s1) ->
  token_exchange_error e \/ e = FloRequestError ClientError.
Proof.
  intros H. pose proof (update_cycle_body_steps s) as S. cbv zeta in S.
  destruct (send_presence_ping (snd s)) as [[p|e1] a1] eqn:E1.
  2:{ rewrite S in H. inversion H. subst. unfold send_presence_ping in E1.
      eapply request_raises_cases. exact E1. }
  destruct (get_device_info _ a1) as [[info|e2] a2] eqn:E2.
  2:{ rewrite S in H. inversion H. subst. unfold get_device_info in E2.
      eapply request_raises_cases. exact E2. }
  destruct (get_consumption_info _ _ _ a2) as [[usage|e3] a3] eqn:E3.
  { rewrite S in H. discriminate. }
  unfold get_consumption_info in E3. cbv zeta in E3.
  apply request_raises_cases in E3.
  rewrite S in H. destruct E3 as [Ht | ->]; [|discriminate].
  destruct Ht; inversion H; subst; left; constructor.
Qed.

(** X7.  What the update method can raise.  Either [UpdateFailed],
    wrapping a request error, a timeout or a JSON decoding error, and
    then the failure counter is above 3; or an error of the token
    exchange that the [except] clause does not name ([FloAuthError], or a
    bare [KeyError], [TypeError], [ValueError] or [OverflowError]), and
    then the counter is as it was.  [ClientError], [FloRequestError],
    [TimeoutError] and [JSONDecodeError] never leave it. *)
Theorem update_exceptions (s : Sys) (e : Exn) :
  fst (cycle s) = Raises e ->
  (exists cause,
      e = UpdateFailed cause /\
      (cause = FloRequestError ClientError \/ cause = TimeoutError \/
       cause = JSONDecodeError) /\
      failures (snd (cycle s)) = failures s + 1 /\
      failures (snd (cycle s)) > 3) \/
  ((exists cause, e = FloAuthError cause) \/ (exists k, e = KeyError k) \/
   e = TypeError \/ e = ValueError \/ e = OverflowError) /\
  failures (snd (cycle s)) = failures s.
Proof.
  rewrite cycle_unfold.
  destruct (update_cycle_body s) as [[a|e1] s1] eqn:Eb; [discriminate|].
  pose proof (update_cycle_body_raises_count s e1 s1 Eb) as Hc.
  pose proof (update_cycle_body_raises_cases s e1 s1 Eb) as Hk.
  destruct (soft_failure e1) eqn:Hs.
  - unfold count_failure. cbn [fst snd]. rewrite Hc.
    destruct (Z.gtb_spec (failures s + 1) 3) as [Hgt|Hle]; [|discriminate].
    intros H. inversion H. subst. left. exists e1.
    split; [reflexivity|]. split.
    + destruct Hk as [Ht | ->]; [|auto].
      destruct Ht; cbn [soft_failure] in Hs; try discriminate; auto.
    + unfold failures in *. cbn [fst set_failure_count _failure_count].
      split; [reflexivity | lia].
  - cbn [fst snd]. intros H. inversion H. subst. right. split; [|exact Hc].
    destruct Hk as [Ht | ->]; [|discriminate].
    destruct Ht; cbn [soft_failure] in Hs; try discriminate; eauto 7.
Qed.

Lemma update_exceptions_witness :
  let s := (polled_device,
            (signed_in, fresh_world (seconds 3596) (always NetClientError))) in
  fst (cycle s) = Raises (FloAuthError ClientError) /\
  failures (snd (cycle s)) = failures s.
Proof.
  cbv zeta. split; [reflexivity|].
  destruct (update_exceptions
              (polled_device,
               (signed_in, fresh_world (seconds 3596) (always NetClientError)))
              (FloAuthError ClientError) eq_refl)
    as [(cause & E & _) | [_ H]]; [discriminate | exact H].
Defined.

(** A request made while the token is more than five minutes from its
    expiration is one call, with that token, and leaves the client as it
    was. *)







(** X10.  A cycle run while the token stays more than five minutes from
    its expiration, with all three replies parsed, makes exactly three
    calls, in this order: POST /presence/me, GET /devices/<device id>,
    GET /water/consumption for the day of the moment the device reply
    arrived; each carries the held token.  It stores the second and third
    bodies and sets the failure counter to 0.  The gate computes the
    moment five minutes before the expiration: the above is the case
    where that moment is a [datetime], as it is for every expiration
    later than the first five minutes of year 1; in the other case the
    subtraction is an [OverflowError], which the cycle raises at once,
    with nothing sent and nothing changed. *)
Theorem healthy_cycle
        (c : Coordinator) (api : FloAPI) (w : World)
        (expiration : datetime) (p info usage : json) :
  let r0 := script w (cursor w) in
  let r1 := script w (S (cursor w)) in
  let r2 := script w (S (S (cursor w))) in
  let t1 := now w + elapsed r0 + elapsed r1 in
  let tok := _access_token api in
  truthy tok = true ->
  _token_expiration api = Some expiration ->
  expiration - now w > minutes 5 ->
  expiration - (now w + elapsed r0) > minutes 5 ->
  expiration - t1 > minutes 5 ->
  outcome r0 = NetJson p ->
  outcome r1 = NetJson info ->
  outcome r2 = NetJson usage ->
  (datetime_ok (expiration - minutes 5) = true ->
   exists w',
     cycle (c, (api, w)) =
     (Returns tt,
      (mkCoordinator (_flo_location_id c) (_flo_device_id c) (_manufacturer c)
                     info usage 0,
       (api, w'))) /\
     map request_of (history w') =
     ([request_call "get" "/water/consumption"
         (mkKwargs [("startDate", PDate (start_of_day t1));
                    ("endDate", PDate (end_of_day t1));
                    ("interval", PStr "1h");
                    ("locationId", PStr (_flo_location_id c))] None None) tok;
       request_call "get" ("/devices/" ++ _flo_device_id c) no_kwargs tok;
       request_call "post" "/presence/me" no_kwargs tok]
      ++ map request_of (history w))%list) /\
  (datetime_ok (expiration - minutes 5) = false ->
   cycle (c, (api, w)) = (Raises OverflowError, (c, (api, w)))).
Proof.
  cbv zeta. intros Ht He H0 H1 H2 Ho0 Ho1 Ho2.
  pose proof (update_cycle_body_steps (c, (api, w))) as Hsteps.
  cbv zeta in Hsteps. cbn [fst snd] in Hsteps. split; intros Hok.
  - unfold send_presence_ping in Hsteps. rewrite request_fresh in Hsteps.
    2:{ split; [exact Ht|]. exists expiration. split; [exact He|].
        split; [exact Hok | exact H0]. }
    rewrite Ho0 in Hsteps. cbn [result_of_outcome wrap_request_error] in Hsteps.
    unfold get_device_info in Hsteps. rewrite request_fresh in Hsteps.
    2:{ split; [exact Ht|]. exists expiration. split; [exact He|].
        split; [exact Hok|]. unfold http. cbn [snd now]. exact H1. }
    unfold http in Hsteps. cbn [snd cursor script now] in Hsteps.
    rewrite Ho1 in Hsteps. cbn [result_of_outcome wrap_request_error] in Hsteps.
    unfold get_consumption_info in Hsteps. cbv zeta in Hsteps.
    rewrite request_fresh in Hsteps.
    2:{ split; [exact Ht|]. exists expiration. split; [exact He|].
        split; [exact Hok|]. cbn [now]. exact H2. }
    unfold http in Hsteps. cbn [snd cursor script now] in Hsteps.
    rewrite Ho2 in Hsteps. cbn [result_of_outcome wrap_request_error] in Hsteps.
    eexists. split.
    + rewrite cycle_unfold, Hsteps. reflexivity.
    + cbn [history map request_of]. reflexivity.
  - unfold send_presence_ping in Hsteps.
    rewrite request_unfold, ensure_expiration_too_early in Hsteps.
    2:{ split; [exact Ht|]. exists expiration. split; [exact He | exact Hok]. }
    rewrite cycle_unfold, Hsteps. reflexivity.
Qed.

Lemma healthy_cycle_witness :
  let s := (polled_device,
            (signed_in,
             fresh_world (seconds 60)
               (replies [mkReply 100000 (NetJson (JObj []));
                         mkReply 100000 (NetJson device_document);
                         mkReply 100000 (NetJson consumption_without_sum)]))) in
  fst (cycle s) = Returns tt /\
  _water_usage (fst (snd (cycle s))) = consumption_without_sum /\
  List.length (history (snd (snd (snd (cycle s))))) = 3%nat.
Proof.
  cbv zeta.
  destruct (proj1 (healthy_cycle polled_device signed_in
              (fresh_world (seconds 60)
                 (replies [mkReply 100000 (NetJson (JObj []));
                           mkReply 100000 (NetJson device_document);
                           mkReply 100000 (NetJson consumption_without_sum)]))
              (seconds 3600) (JObj []) device_document consumption_without_sum
              eq_refl eq_refl eq_refl eq_refl eq_refl eq_refl eq_refl eq_refl)
              eq_refl)
    as (w' & E & Hh).
  rewrite E. cbn [fst snd _water_usage]. repeat split.
  rewrite <- (length_map request_of), Hh. reflexivity.
Defined.

Lemma update_cycle_body_ids s r s1 :
  update_cycle_body s = (r, s1) ->
  _flo_location_id (fst s1) = _flo_location_id (fst s) /\
  _flo_device_id (fst s1) = _flo_device_id (fst s) /\
  _manufacturer (fst s1) = _manufacturer (fst s).
Proof.
  intros H. pose proof (update_cycle_body_steps s) as Hsteps.
  cbv zeta in Hsteps.
  destruct (send_presence_ping (snd s)) as [[p|e1] a1].
  2:{ rewrite Hsteps in H. inversion H. auto. }
  destruct (get_device_info _ a1) as [[info|e2] a2].
  2:{ rewrite Hsteps in H. inversion H. auto. }
  destruct (get_consumption_info _ _ _ a2) as [[usage|e3] a3].
  { rewrite Hsteps in H. inversion H. auto. }
  rewrite Hsteps in H. destruct e3; inversion H; auto.
Qed.

Lemma cycle_ids s :
  _flo_location_id (fst (snd (cycle s))) = _flo_location_id (fst s) /\
  _flo_device_id (fst (snd (cycle s))) = _flo_device_id (fst s) /\
  _manufacturer (fst (snd (cycle s))) = _manufacturer (fst s).
Proof.
  rewrite cycle_unfold.
  destruct (update_cycle_body s) as [[a|e] s1] eqn:Eb;
    pose proof (update_cycle_body_ids s _ s1 Eb) as Hi; [exact Hi|].
  destruct (soft_failure e); exact Hi.
Qed.

(** X11.  Location id, device id and manufacturer are fixed at
    construction: no number of update cycles, whatever each of them runs
    into, changes them. *)
Theorem identifiers_never_change (n : nat) (s : Sys) :
  location_id (fst (snd (poll n s))) = location_id (fst s) /\
  id (fst (snd (poll n s))) = id (fst s) /\
  manufacturer (fst (snd (poll n s))) = manufacturer (fst s).
Proof.
  unfold location_id, id, manufacturer. revert s.
  induction n as [|n IH]; intros s; [repeat split|].
  cbn [poll]. pose proof (cycle_ids s) as Hc. specialize (IH (snd (cycle s))).
  destruct (cycle s) as [r s1]. cbn [fst snd] in *.
  destruct (poll n s1) as [rs s2]. cbn [fst snd] in *.
  destruct Hc as (H1 & H2 & H3). destruct IH as (I1 & I2 & I3).
  repeat split; congruence.
Qed.

(** X12.  A cycle that gets the device document and then runs into a
    timeout or an undecodable body while fetching the consumption counts
    as a failure, keeps the consumption document it had, and keeps the
    device document it has just fetched. *)
Theorem consumption_timeout_keeps_stale_usage
        (s : Sys) (p info : json) (e : Exn) (a1 a2 a3 : ApiState) :
  send_presence_ping (snd s) = (Returns p, a1) ->
  get_device_info (_flo_device_id (fst s)) a1 = (Returns info, a2) ->
  get_consumption_info (_flo_location_id (fst s))
    (start_of_day (now (snd a2))) (end_of_day (now (snd a2))) a2
    = (Raises e, a3) ->
  e = TimeoutError \/ e = JSONDecodeError ->
  cycle s =
  (if failures s + 1 >? 3 then Raises (UpdateFailed e) else Returns tt,
   (mkCoordinator (_flo_location_id (fst s)) (_flo_device_id (fst s))
                  (_manufacturer (fst s)) info (_water_usage (fst s))
                  (failures s + 1),
    a3)).
Proof.
  intros H1 H2 H3 He. pose proof (update_cycle_body_steps s) as Hsteps.
  cbv zeta in Hsteps. rewrite H1, H2, H3 in Hsteps.
  rewrite cycle_unfold.
  destruct He as [-> | ->]; rewrite Hsteps; reflexivity.
Qed.

Lemma consumption_timeout_keeps_stale_usage_witness :
  let s := (polled_device,
            (signed_in,
             fresh_world (seconds 60)
               (replies [mkReply 100000 (NetJson (JObj []));
                         mkReply 100000 (NetJson (JObj [("deviceModel", JStr "m2")]));
                         mkReply 19800000 NetTimeout]))) in
  fst (cycle s) = Returns tt /\
  fst (snd (cycle s)) =
    mkCoordinator "loc-1" "dev-1" "Flo by Moen"
                  (JObj [("deviceModel", JStr "m2")]) consumption_document 1.
Proof.
  cbv zeta.
  rewrite (consumption_timeout_keeps_stale_usage
             (polled_device,
              (signed_in,
               fresh_world (seconds 60)
                 (replies [mkReply 100000 (NetJson (JObj []));
                           mkReply 100000 (NetJson (JObj [("deviceModel", JStr "m2")]));
                           mkReply 19800000 NetTimeout])))
             (JObj []) (JObj [("deviceModel", JStr "m2")]) TimeoutError _ _ _
             eq_refl eq_refl eq_refl (or_introl eq_refl)).
  split; reflexivity.
Defined.

(** X13.  A cycle whose [try] block runs to its end sets the failure
    counter to 0 whatever it was, also above 3; three soft failures right
    after it are therefore not reported. *)
Theorem success_resets_debounce (s s1 : Sys) :
  update_cycle_body s = (Returns tt, s1) ->
  cycle s = (Returns tt, s1) /\
  failures s1 = 0 /\
  (soft_streak 3 s1 = true ->
   map reported_failed (fst (poll 4 s)) = [false; false; false; false] /\
   failures (snd (poll 4 s)) = 3).
Proof.
  intros Hb.
  assert (Hc : cycle s = (Returns tt, s1)) by (rewrite cycle_unfold, Hb; reflexivity).
  assert (H0 : failures s1 = 0).
  { pose proof (update_cycle_body_steps s) as Hsteps. cbv zeta in Hsteps.
    destruct (send_presence_ping (snd s)) as [[p|e1] a1];
      [|rewrite Hsteps in Hb; discriminate].
    destruct (get_device_info _ a1) as [[info|e2] a2];
      [|rewrite Hsteps in Hb; discriminate].
    destruct (get_consumption_info _ _ _ a2) as [[usage|e3] a3];
      rewrite Hsteps in Hb; [inversion Hb; reflexivity|].
    destruct e3; inversion Hb; reflexivity. }
  split; [exact Hc|]. split; [exact H0|].
  intros Hs. destruct (soft_streak_reports 3 s1 Hs) as [Hn Hr].
  change (poll 4 s) with (let (r, s') := cycle s in
                          let (rs, s'') := poll 3 s' in (r :: rs, s'')).
  rewrite Hc. destruct (poll 3 s1) as [rs s2]. cbn [fst snd] in *.
  rewrite Hn, H0. cbn [map reported_failed]. rewrite Hr, H0.
  split; reflexivity.
Qed.

Lemma success_resets_debounce_witness :
  let s := (set_failure_count 7 polled_device,
            (signed_in,
             fresh_world (seconds 60)
               (replies [mkReply 100000 (NetJson (JObj []));
                         mkReply 100000 (NetJson device_document);
                         mkReply 100000 (NetJson consumption_document)]))) in
  map reported_failed (fst (poll 4 s)) = [false; false; false; false] /\
  failures (snd (poll 4 s)) = 3.
Proof.
  cbv zeta.
  refine (proj2 (proj2 (success_resets_debounce
            (set_failure_count 7 polled_device,
             (signed_in,
              fresh_world (seconds 60)
                (replies [mkReply 100000 (NetJson (JObj []));
                          mkReply 100000 (NetJson device_document);
                          mkReply 100000 (NetJson consumption_document)])))
            _ _)) _).
  - vm_compute. reflexivity.
  - vm_compute. reflexivity.
Defined.

(* ===================================================================== *)
(** ** Commands                                                          *)
(* ===================================================================== *)

Lemma lookup_dict_set key k v d :
  lookup key (dict_set k v d) =
  if (k =? key)%string then Some v else lookup key d.
Proof.
  induction d as [|[k' x] d IH]; cbn [dict_set lookup].
  - reflexivity.
  - destruct (String.eqb_spec k' k) as [->|Hne]; cbn [lookup].
    + destruct (k =? key)%string; reflexivity.
    + rewrite IH. destruct (String.eqb_spec k' key) as [->|Hne']; [|reflexivity].
      destruct (String.eqb_spec k key) as [->|_]; [congruence | reflexivity].
Qed.

Lemma lookup_dict_update key other : forall d,
  NoDup (map fst other) ->
  lookup key (dict_update d other) =
  match lookup key other with
  | Some v => Some v
  | None => lookup key d
  end.
Proof.
  unfold dict_update.
  induction other as [|[k v] other IH]; intros d Hnd; [reflexivity|].
  cbn [fold_left fst snd lookup]. cbn [map fst] in Hnd.
  inversion Hnd as [|? ? Hnotin Hnd']; subst.
  rewrite (IH _ Hnd'), lookup_dict_set.
  destruct (String.eqb_spec k key) as [->|Hne]; [|reflexivity].
  assert (Hn : lookup key other = None).
  { clear -Hnotin. induction other as [|[k' v'] other IH]; [reflexivity|].
    cbn [lookup]. cbn [map fst In] in Hnotin.
    destruct (String.eqb_spec k' key) as [->|_]; [tauto|].
    apply IH. tauto. }
  rewrite Hn. reflexivity.
Qed.

(** X14.  [set_location_mode] with extra keyword arguments.  A keyword
    named "self", "location_id" or "mode" is a [TypeError] of the call:
    nothing is sent and nothing changes.  Otherwise the body posted,
    read under "systemMode", has every keyword argument with its value,
    has "target" equal to the mode unless a keyword argument named
    "target" was passed, which then replaces it, and has nothing else;
    with a token more than five minutes from expiration the POST to
    /locations/<location id>/systemMode is the only call made. *)
Theorem set_location_mode_body
        (c : FloAPI) (w : World) (location mode : string)
        (kwargs : list (string * json)) :
  NoDup (map fst kwargs) ->
  (names_parameter kwargs = true ->
   set_location_mode location mode kwargs (c, w) = (Raises TypeError, (c, w))) /\
  (names_parameter kwargs = false ->
   expires_after (minutes 5) c (now w) ->
   exists data x,
     issued w (snd (snd (set_location_mode location mode kwargs (c, w)))) [x] /\
     http_method (request_of x) = "post" /\
     http_url (request_of x) =
       API_V2_BASE ++ "/locations/" ++ location ++ "/systemMode" /\
     http_json (request_of x) = Some (JObj [("systemMode", JObj data)]) /\
     forall key,
       lookup key data =
       match lookup key kwargs with
       | Some v => Some v
       | None => if (key =? "target")%string then Some (JStr mode) else None
       end).
Proof.
  intros Hnd. unfold set_location_mode. split.
  - intros ->. reflexivity.
  - intros -> Hf. cbv zeta.
    rewrite request_fresh by exact Hf.
    eexists. eexists. split; [reflexivity|].
    cbn [snd http request_of request_call http_method http_url http_json kw_json].
    split; [reflexivity|]. split; [reflexivity|]. split; [reflexivity|].
    intros key. destruct kwargs as [|kv kwargs'].
    + cbn [lookup]. rewrite String.eqb_sym. reflexivity.
    + rewrite (lookup_dict_update key (kv :: kwargs') _ Hnd).
      cbn [lookup]. rewrite (String.eqb_sym key). reflexivity.
Qed.

Lemma set_location_mode_body_witness :
  let s := (signed_in, fresh_world (seconds 60) (always (NetJson (JObj [])))) in
  set_location_mode "loc-1" "sleep" [("mode", JStr "away")] s
    = (Raises TypeError, s) /\
  exists data x,
    issued (snd s)
           (snd (snd (set_location_mode "loc-1" "sleep"
                        [("revertMinutes", JInt 120); ("target", JStr "away")] s)))
           [x] /\
    http_json (request_of x) = Some (JObj [("systemMode", JObj data)]) /\
    lookup "target" data = Some (JStr "away") /\
    lookup "revertMinutes" data = Some (JInt 120).
Proof.
  cbv zeta. split.
  - refine (proj1 (set_location_mode_body signed_in _ "loc-1" "sleep"
                     [("mode", JStr "away")] _) eq_refl).
    repeat constructor; cbn [In]; intuition discriminate.
  - destruct (set_location_mode_body signed_in
                (fresh_world (seconds 60) (always (NetJson (JObj []))))
                "loc-1" "sleep"
                [("revertMinutes", JInt 120); ("target", JStr "away")])
      as [_ H].
    + repeat constructor; cbn [In]; intuition discriminate.
    + destruct H as (data & x & Hi & _ & _ & Hj & Hl).
      * reflexivity.
      * split; [reflexivity|]. exists (seconds 3600).
        split; [reflexivity|]. split; reflexivity.
      * exists data, x. split; [exact Hi|]. split; [exact Hj|].
        split; [rewrite Hl | rewrite Hl]; reflexivity.
Defined.

Lemma api_client_keeps_coordinator {A} (m : Py ApiState A) s :
  fst (snd (api_client m s)) = fst s.
Proof. unfold api_client. destruct (m (snd s)). reflexivity. Qed.

(** X15.  The coordinator's commands (home, away, sleep, health test)
    hand over to the client and change nothing in the coordinator,
    whatever the outcome.  None of them passes the client's reply on:
    each returns [None] when the client's call returned and raises what
    the client's call raised otherwise.  With a token more than five
    minutes from expiration, the sleep command is one POST to
    /locations/<location id>/systemMode whose body is
    {"systemMode": {"target": "sleep", "revertMinutes": ..., "revertMode": ...}};
    it returns [None] when that call is answered with JSON, and raises
    [FloRequestError] on a transport failure, [TimeoutError] on a
    timeout and [JSONDecodeError] on a reply that is not JSON. *)
Theorem commands_keep_coordinator
        (s : Sys) (sleep_minutes revert_to_mode : json) :
  let location_id := _flo_location_id (fst s) in
  let device_id := _flo_device_id (fst s) in
  let sleep_kwargs :=
    [("revertMinutes", sleep_minutes); ("revertMode", revert_to_mode)] in
  (fst (snd (async_set_mode_home s)) = fst s /\
   fst (async_set_mode_home s) =
     result_dropped (fst (set_location_mode location_id "home" [] (snd s))) /\
   snd (snd (async_set_mode_home s)) =
     snd (set_location_mode location_id "home" [] (snd s))) /\
  (fst (snd (async_set_mode_away s)) = fst s /\
   fst (async_set_mode_away s) =
     result_dropped (fst (set_location_mode location_id "away" [] (snd s))) /\
   snd (snd (async_set_mode_away s)) =
     snd (set_location_mode location_id "away" [] (snd s))) /\
  (fst (snd (async_set_mode_sleep sleep_minutes revert_to_mode s)) = fst s /\
   fst (async_set_mode_sleep sleep_minutes revert_to_mode s) =
     result_dropped
       (fst (set_location_mode location_id "sleep" sleep_kwargs (snd s))) /\
   snd (snd (async_set_mode_sleep sleep_minutes revert_to_mode s)) =
     snd (set_location_mode location_id "sleep" sleep_kwargs (snd s))) /\
  (fst (snd (async_run_health_test s)) = fst s /\
   fst (async_run_health_test s) =
     result_dropped (fst (run_health_test device_id (snd s))) /\
   snd (snd (async_run_health_test s)) =
     snd (run_health_test device_id (snd s))) /\
  (expires_after (minutes 5) (fst (snd s)) (now (snd (snd s))) ->
   let w := snd (snd s) in
   let call :=
     mkCall "post"
            (API_V2_BASE ++ "/locations/" ++ location_id ++ "/systemMode")
            (Some (_access_token (fst (snd s))))
            (Some (JObj [("systemMode",
                          JObj [("target", JStr "sleep");
                                ("revertMinutes", sleep_minutes);
                                ("revertMode", revert_to_mode)])]))
            [] 20 in
   async_set_mode_sleep sleep_minutes revert_to_mode s =
   (match outcome (script w (cursor w)) with
    | NetJson _ => Returns tt
    | NetClientError => Raises (FloRequestError ClientError)
    | NetTimeout => Raises TimeoutError
    | NetBadJson => Raises JSONDecodeError
    end,
    (fst s, (fst (snd s), snd (http call w))))).
Proof.
  cbv zeta.
  unfold async_set_mode_home, async_set_mode_away, async_set_mode_sleep,
    async_run_health_test.
  unfold bind, this, ret, api_client. cbn [fst snd].
  destruct s as [c [api w]]. cbn [fst snd].
  repeat match goal with
         | |- (_ /\ _ /\ _) /\ _ =>
             split;
             [match goal with
              | |- context [?m (api, w)] =>
                  destruct (m (api, w)) as [[?|?] [? ?]];
                  repeat split; reflexivity
              end|]
         end.
  intros Hf.
  unfold set_location_mode. cbn [names_parameter existsb fst orb String.eqb
                                  Ascii.eqb Bool.eqb]. cbv zeta.
  rewrite request_fresh by exact Hf.
  cbn [fst snd]. destruct (outcome (script w (cursor w))); reflexivity.
Qed.

Lemma commands_keep_coordinator_witness :
  let s := (polled_device,
            (signed_in, fresh_world (seconds 60) (always NetClientError))) in
  async_set_mode_sleep (JInt 120) (JStr "home") s =
  (Raises (FloRequestError ClientError),
   (polled_device, snd (snd (async_set_mode_sleep (JInt 120) (JStr "home") s)))).
Proof.
  cbv zeta.
  rewrite (proj2 (proj2 (proj2 (proj2 (commands_keep_coordinator
             (polled_device,
              (signed_in, fresh_world (seconds 60) (always NetClientError)))
             (JInt 120) (JStr "home")))))).
  - reflexivity.
  - split; [reflexivity|]. exists (seconds 3600).
    split; [reflexivity|]. split; reflexivity.
Defined.

(* ===================================================================== *)
(** ** More projections                                                  *)
(* ===================================================================== *)

(** X16.  [available] needs both: with the last update failed it is
    [False] whatever the device document is, even an empty one, and
    nothing is looked up; with the last update successful it is the
    document's "isConnected" value, and a [KeyError] when the document
    has none.  So a true result means that the last update succeeded and
    the device reports a true "isConnected". *)
Theorem available_needs_both (c : Coordinator) :
  available false c = Returns (JBool false) /\
  (forall fields,
     _device_information c = JObj fields ->
     available true c =
     match lookup "isConnected" fields with
     | Some v => Returns v
     | None => Raises (KeyError "isConnected")
     end) /\
  (forall ok v,
     available ok c = Returns v -> truthy v = true ->
     ok = true /\ subscript (_device_information c) "isConnected" = Returns v).
Proof.
  split; [reflexivity|]. split.
  - intros fields Hd. unfold available. cbn [subscripts]. rewrite Hd.
    cbn [subscript]. destruct (lookup "isConnected" fields); reflexivity.
  - intros ok v H Hv. destruct ok.
    + split; [reflexivity|]. unfold available in H. cbn [subscripts] in H.
      destruct (subscript (_device_information c) "isConnected");
        cbn [rbind] in H; [exact H | discriminate].
    + cbn [available] in H. inversion H. subst. discriminate.
Qed.

Lemma subscripts_pending doc key :
  subscripts doc ["notifications"; "pending"; key] =
  rbind (subscripts doc ["notifications"; "pending"])
        (fun pending => subscript pending key).
Proof.
  cbn [subscripts].
  destruct (subscript doc "notifications") as [n|]; [|reflexivity].
  cbn [rbind]. destruct (subscript n "pending") as [p|]; [|reflexivity].
  cbn [rbind]. destruct (subscript p key); reflexivity.
Qed.

(** X17.  [has_alerts], on a document whose notifications.pending is an
    object.  The three counts are read in the order info, warning,
    critical and reading stops at the first one that is true: a non-zero
    "infoCount" gives [True] even when the other two are missing.  With
    three integer counts the result is [True] exactly when one of them is
    not zero.  A zero "infoCount" beside a missing "warningCount" is a
    [KeyError]. *)
Theorem has_alerts_short_circuits
        (c : Coordinator) (pending : list (string * json)) :
  subscripts (_device_information c) ["notifications"; "pending"]
    = Returns (JObj pending) ->
  (forall v, lookup "infoCount" pending = Some v -> truthy v = true ->
             has_alerts c = Returns true) /\
  (forall i w k,
     lookup "infoCount" pending = Some (JInt i) ->
     lookup "warningCount" pending = Some (JInt w) ->
     lookup "criticalCount" pending = Some (JInt k) ->
     has_alerts c = Returns (negb ((i =? 0) && (w =? 0) && (k =? 0)))) /\
  (lookup "infoCount" pending = Some (JInt 0) ->
   lookup "warningCount" pending = None ->
   has_alerts c = Raises (KeyError "warningCount")) /\
  (lookup "infoCount" pending = None ->
   has_alerts c = Raises (KeyError "infoCount")).
Proof.
  intros Hp. unfold has_alerts, pending_info_alerts_count,
    pending_warning_alerts_count, pending_critical_alerts_count.
  rewrite !subscripts_pending, Hp. cbn [rbind subscript].
  split; [|split; [|split]].
  - intros v Hi Hv. rewrite Hi. cbn [py_or rbind]. rewrite Hv.
    cbn [rbind]. rewrite Hv. reflexivity.
  - intros i w k Hi Hw Hk. rewrite Hi, Hw, Hk. cbn [py_or rbind truthy].
    destruct (i =? 0) eqn:Ei; cbn [negb andb rbind truthy]; rewrite ?Ei;
      [|reflexivity].
    destruct (w =? 0) eqn:Ew; cbn [negb andb rbind truthy]; rewrite ?Ew;
      [|reflexivity].
    destruct (k =? 0) eqn:Ek; cbn [negb andb rbind truthy]; rewrite ?Ek;
      reflexivity.
  - intros Hi Hw. rewrite Hi, Hw. reflexivity.
  - intros Hi. rewrite Hi. reflexivity.
Qed.

Lemma has_alerts_short_circuits_witness :
  has_alerts
    (set_device_information
       (JObj [("notifications", JObj [("pending", JObj [("infoCount", JInt 2)])])])
       polled_device)
  = Returns true.
Proof.
  refine (proj1 (has_alerts_short_circuits
            (set_device_information
               (JObj [("notifications",
                       JObj [("pending", JObj [("infoCount", JInt 2)])])])
               polled_device)
            [("infoCount", JInt 2)] eq_refl) (JInt 2) eq_refl eq_refl).
Defined.

(** X18.  [async_get_api] makes exactly one call, the password-grant
    POST with the given credentials.  It returns a client exactly when
    the reply is a JSON body with the four fields whose "expires_in" is
    accepted by [timedelta] and whose expiration, the time of the reply
    plus that many seconds, is a [datetime]; that client holds the
    credentials and the token, refresh token, user id and expiration
    taken from the reply.  Otherwise it raises what [authenticate]
    raised, which is a [FloAuthError] for a transport failure or a
    missing field and the raw exception for anything else (a timeout, a
    reply that is not JSON, a body that is not an object, an "expires_in"
    that is no number or out of range), and no client comes out. *)
Theorem async_get_api_result (username password : string) (w : World) :
  snd (async_get_api username password w) =
    snd (http (token_post (password_grant username password)) w) /\
  (forall api,
     fst (async_get_api username password w) = Returns api <->
     exists body a r u e d,
       outcome (script w (cursor w)) = NetJson body /\
       subscript body "access_token" = Returns a /\
       subscript body "refresh_token" = Returns r /\
       subscript body "user_id" = Returns u /\
       subscript body "expires_in" = Returns e /\
       timedelta_seconds e = Returns d /\
       datetime_ok (now w + elapsed (script w (cursor w)) + d) = true /\
       api = mkFloAPI username password a r
                      (Some (now w + elapsed (script w (cursor w)) + d)) u) /\
  (forall e,
     fst (async_get_api username password w) = Raises e ->
     fst (authenticate (FloAPI_init username password, w)) = Raises e /\
     token_exchange_error e).
Proof.
  unfold async_get_api.
  pose proof (authenticate_world (FloAPI_init username password) w) as Hw.
  destruct (authenticate (FloAPI_init username password, w))
    as [[[]|e0] [c' w']] eqn:E; cbn [fst snd] in *.
  - split; [exact Hw|]. split; [|intros e H; discriminate].
    apply authenticate_returns in E.
    destruct E as (body & a & r & u & e & d & Ho & Ha & Hr & Hu & He & Hd & Hok & Es).
    injection Es as -> ->. cbn [_username _password FloAPI_init].
    intros api. split.
    + intros H. inversion H. subst. exists body, a, r, u, e, d. auto 10.
    + intros (body' & a' & r' & u' & e' & d' & Ho' & Ha' & Hr' & Hu' & He' & Hd'
              & _ & ->).
      rewrite Ho in Ho'. inversion Ho'. subst body'. congruence.
  - split; [exact Hw|]. split.
    + intros api. split; [discriminate|].
      intros (body & a & r & u & e & d & Ho & Ha & Hr & Hu & He & Hd & Hok & _).
      rewrite (authenticate_complete _ w body a r u e d Ho Ha Hr Hu He Hd Hok) in E.
      discriminate.
    + intros e H. inversion H. subst. split; [reflexivity|].
      eapply authenticate_raises_token_error. exact E.
Qed.

Lemma subscripts_raises keys : forall v e,
  subscripts v keys = Raises e ->
  (exists k, In k keys /\ e = KeyError k) \/ e = TypeError.
Proof.
  induction keys as [|k keys IH]; intros v e H; [discriminate|].
  cbn [subscripts] in H.
  destruct (subscript_cases v k) as [[x E]|[E|E]]; rewrite E in H; cbn [rbind] in H.
  - destruct (IH x e H) as [(k' & Hin & ->) | ->]; [left | now right].
    exists k'. split; [now right | reflexivity].
  - inversion H. left. exists k. split; [now left | reflexivity].
  - inversion H. now right.
Qed.

(** X19.  The projections that subscript the device document never
    supply a default: what they raise is a [KeyError] naming a key of
    their path, or a [TypeError] when a value on the path is not an
    object.  On the empty document a coordinator starts with, each of
    them raises the [KeyError] of its first key, whereas [serial_number]
    and [consumption_today] return [None]. *)
Theorem document_projections_raise
        (f : Coordinator -> result json) (path : list string) (c : Coordinator) :
  In (f, path) document_projections ->
  f c = subscripts (_device_information c) path /\
  (forall e, f c = Raises e ->
             (exists k, In k path /\ e = KeyError k) \/ e = TypeError) /\
  (_device_information c = JObj [] ->
   f c = Raises (KeyError (hd EmptyString path)) /\
   serial_number c = Returns JNull) /\
  (_water_usage c = JObj [] -> consumption_today c = Returns JNull).
Proof.
  intros Hin.
  assert (Hf : f c = subscripts (_device_information c) path).
  { cbn [document_projections In] in Hin.
    repeat (destruct Hin as [Hin | Hin];
            [injection Hin as <- <-; try reflexivity;
             unfold model; cbn [subscripts];
             destruct (subscript (_device_information c) "deviceModel");
             reflexivity|]).
    contradiction. }
  split; [exact Hf|]. split; [|split].
  - intros e He. rewrite Hf in He. eapply subscripts_raises. exact He.
  - intros Hd. split.
    + cbn [document_projections In] in Hin.
      repeat (destruct Hin as [Hin | Hin];
              [injection Hin as <- <-; cbv beta delta [mac_address rssi
                 last_heard_from_time device_type model current_system_mode
                 target_system_mode current_flow_rate current_psi temperature
                 humidity firmware_version pending_info_alerts_count
                 pending_warning_alerts_count pending_critical_alerts_count
                 water_detected last_known_valve_state target_valve_state
                 battery_level];
               rewrite Hd; reflexivity|]).
      contradiction.
    + unfold serial_number. rewrite Hd. reflexivity.
  - intros Hw. unfold consumption_today. rewrite Hw. reflexivity.
Qed.

Lemma document_projections_raise_witness :
  current_psi (Coordinator_init "loc-1" "dev-1") = Raises (KeyError "telemetry") /\
  serial_number (Coordinator_init "loc-1" "dev-1") = Returns JNull.
Proof.
  refine (proj1 (proj2 (proj2 (document_projections_raise
            current_psi ["telemetry"; "current"; "psi"]
            (Coordinator_init "loc-1" "dev-1") _))) eq_refl).
  cbn [document_projections In]. do 8 right. left. reflexivity.
Defined.

(** X20.  The window [_update_consumption_data] asks for: it starts at
    the midnight that begins the current day, which is not after the
    current instant and less than a day before it; it ends one
    millisecond before the next midnight, so the windows of two days
    never overlap and every instant of a day but its last millisecond
    lies in that day's window; and every instant of a day gets the same
    window. *)
Theorem consumption_window (t : datetime) :
  start_of_day t <= t < start_of_day t + day /\
  start_of_day t mod day = 0 /\
  end_of_day t = start_of_day t + day - 1000 /\
  (t <= end_of_day t \/ start_of_day t + day - 1000 < t) /\
  (forall t', start_of_day t <= t' < start_of_day t + day ->
              start_of_day t' = start_of_day t /\ end_of_day t' = end_of_day t).
Proof.
  assert (Hday : day = 86400000000) by reflexivity.
  assert (Hs : start_of_day t = day * (t / day)).
  { unfold start_of_day. pose proof (Z.div_mod t day). lia. }
  pose proof (Z.mod_pos_bound t day ltac:(lia)) as Hb.
  split; [unfold start_of_day; lia|]. split.
  { rewrite Hs, Z.mul_comm. apply Z.mod_mul. lia. }
  split; [unfold end_of_day, seconds; lia|].
  split; [unfold end_of_day, seconds; lia|].
  intros t' Ht'.
  assert (E : start_of_day t' = start_of_day t).
  { unfold start_of_day at 1.
    assert (Hq : t' / day = t / day).
    { symmetry. apply (Z.div_unique t' day (t / day) (t' - start_of_day t)); lia. }
    pose proof (Z.div_mod t' day). lia. }
  split; [exact E|]. unfold end_of_day. rewrite E. reflexivity.
Qed.

Lemma authenticate_credentials s :
  credentials (fst (snd (authenticate s))) = credentials (fst s).
Proof.
  destruct s as [c w]. unfold authenticate. unfold_py.
  cbn [fst snd]. unfold http.
  destruct (outcome (script w (cursor w))); cbn [result_of_outcome fst snd];
    try reflexivity.
  repeat case_step; reflexivity.
Qed.

Lemma refresh_credentials s :
  credentials (fst (snd (refresh_access_token s))) = credentials (fst s).
Proof.
  destruct s as [c w].
  destruct (truthy (_refresh_token c)) eqn:Hr.
  2:{ rewrite (refresh_no_refresh_token c w Hr).
      apply (authenticate_credentials (c, w)). }
  destruct (outcome (script w (cursor w))) as [body| | |] eqn:Ho.
  2:{ rewrite (refresh_transport_failure c w Hr Ho).
      exact (authenticate_credentials
               (c, snd (http (token_post (refresh_grant (_refresh_token c))) w))). }
  all: unfold refresh_access_token;
    unfold bind at 1; unfold self at 1; cbn [fst snd]; rewrite Hr; cbn [negb];
    unfold_py; cbn [fst snd]; unfold http; rewrite Ho;
    cbn [result_of_outcome fst snd]; try reflexivity.
  repeat case_step; reflexivity.
Qed.

Lemma ensure_credentials s :
  credentials (fst (snd (_ensure_token_valid s))) = credentials (fst s).
Proof.
  destruct s as [c w].
  destruct (token_state_cases c (now w)) as [H | [H | [H | H]]].
  - rewrite (ensure_no_token c w H). apply (authenticate_credentials (c, w)).
  - rewrite (ensure_near_expiry c w H). apply (refresh_credentials (c, w)).
  - rewrite (ensure_far_from_expiry c w H). reflexivity.
  - rewrite (ensure_expiration_too_early c w H). reflexivity.
Qed.

Lemma request_credentials method path kwargs s :
  credentials (fst (snd (request method path kwargs s))) = credentials (fst s).
Proof.
  rewrite request_unfold. pose proof (ensure_credentials s) as H.
  destruct (_ensure_token_valid s) as [[u|e] s1]; cbn [fst snd] in *; exact H.
Qed.

(** X21.  The credentials given to the client at construction are never
    changed: after any sequence of [authenticate],
    [refresh_access_token] and [request] calls, with whatever replies and
    errors, user name and password are those it was built with. *)
Theorem credentials_never_change
        (username password : string) (w : World) (ops : list Op) :
  _username (fst (run_ops ops (FloAPI_init username password, w))) = username /\
  _password (fst (run_ops ops (FloAPI_init username password, w))) = password.
Proof.
  assert (G : forall s, credentials (fst (run_ops ops s)) = credentials (fst s)).
  { induction ops as [|o ops IH]; intros s; [reflexivity|].
    cbn [run_ops fold_left]. fold (run_ops ops (run_op o s)).
    rewrite (IH (run_op o s)).
    destruct o; cbn [run_op fst].
    - apply authenticate_credentials.
    - apply refresh_credentials.
    - apply request_credentials.
    - reflexivity. }
  specialize (G (FloAPI_init username password, w)).
  unfold credentials in G. cbn [fst FloAPI_init _username _password] in G.
  injection G as G1 G2. split; assumption.
Qed.
